(** * Slareks/Specification: the EDA job monitor and the sshd_config checker

    A shallow embedding of the two scripts of the repository,
    [EDA_job_monitor.py] and [parse_sshd_config.py], and the properties the
    specification states about them.

    Conventions of the embedding.
    - A Python [str] is a [string]: a sequence of code points, here the
      first 256 of them.
    - A decoded JSON value (what [json.loads] returns, and [None]) is a
      [json]; a Python dict read from JSON is an association list in
      iteration order.
    - An exception that escapes a function is the [Raise] case of [result];
      where the source catches every exception, the outcome is a plain
      [option].
    - A [datetime] is a wall-clock reading in microseconds since
      0001-01-01T00:00:00 with an optional UTC offset; a [timedelta] is a
      number of microseconds.
    - What the scripts ask of the machine they run on (the search path, the
      subprocesses, the environment, the clock, the JSON and ISO-8601 parsers
      of the Python library) is the interface [Host]. *)

From Stdlib Require Import ZArith List String Ascii Bool Lia.
From Stdlib Require Import SpecFloat.
From stdpp Require Import base option gmap strings list fin_maps.

Local Open Scope string_scope.
Local Open Scope Z_scope.
Local Set Warnings "-register-all".

(** ** Python [str] methods *)

Module PyStr.

(** [c.isspace()] for a code point below 256. *)
Definition isspace (c : ascii) : bool :=
  let n := N_of_ascii c in
  ((9 <=? n) && (n <=? 13) || (28 <=? n) && (n <=? 32)
   || (n =? 133) || (n =? 160))%N.

(** [c.isdigit()] for a code point below 256: the ASCII digits and the
    superscripts two, three and one. *)
Definition isdigit (c : ascii) : bool :=
  let n := N_of_ascii c in
  ((48 <=? n) && (n <=? 57) || (n =? 178) || (n =? 179) || (n =? 185))%N.

Fixpoint lstrip (s : string) : string :=
  match s with
  | EmptyString => EmptyString
  | String c s' => if isspace c then lstrip s' else s
  end.

Fixpoint rstrip (s : string) : string :=
  match s with
  | EmptyString => EmptyString
  | String c s' =>
      match rstrip s' with
      | EmptyString => if isspace c then EmptyString else String c EmptyString
      | r => String c r
      end
  end.

(** [s.strip()] *)
Definition strip (s : string) : string := lstrip (rstrip s).

(** [s.startswith(p)] *)
Fixpoint startswith (s p : string) : bool :=
  match p, s with
  | EmptyString, _ => true
  | String a p', String b s' => if Ascii.eqb a b then startswith s' p' else false
  | String _ _, EmptyString => false
  end.

(** [sub in s] *)
Fixpoint contains (sub s : string) : bool :=
  startswith s sub
  || match s with
     | EmptyString => false
     | String _ s' => contains sub s'
     end.

(** [s.endswith(suf)] *)
Fixpoint endswith (s suf : string) : bool :=
  String.eqb s suf
  || match s with
     | EmptyString => false
     | String _ s' => endswith s' suf
     end.

(** [s[:-1]] *)
Fixpoint drop_last (s : string) : string :=
  match s with
  | EmptyString => EmptyString
  | String c EmptyString => EmptyString
  | String c s' => String c (drop_last s')
  end.

(** [s.split(c, 1)[0]] for a one-character separator [c]: what stands
    before the first [c], the whole string when there is none. *)
Fixpoint before (c : ascii) (s : string) : string :=
  match s with
  | EmptyString => EmptyString
  | String a s' => if Ascii.eqb a c then EmptyString else String a (before c s')
  end.

(** [s.replace(a, b)] for one-character [a] and [b]. *)
Fixpoint replace_char (a b : ascii) (s : string) : string :=
  match s with
  | EmptyString => EmptyString
  | String x s' => String (if Ascii.eqb x a then b else x) (replace_char a b s')
  end.

(** [s.replace(old, new)], every occurrence from the left, for a non-empty
    [old]; [fuel] bounds the characters still to be scanned. *)
Fixpoint replace_fuel (fuel : nat) (old new s : string) : string :=
  match fuel with
  | O => s
  | S fuel' =>
      if startswith s old
      then new ++ replace_fuel fuel' old new (String.substring (String.length old) (String.length s) s)
      else match s with
           | EmptyString => EmptyString
           | String c s' => String c (replace_fuel fuel' old new s')
           end
  end.

Definition replace (old new s : string) : string :=
  replace_fuel (S (String.length s)) old new s.

(** [s.split()]: the maximal runs of characters that are not white space.
    [cur] is the run being read, reversed. *)
Fixpoint split_aux (cur : string) (s : string) : list string :=
  match s with
  | EmptyString =>
      match cur with
      | EmptyString => []
      | _ => [String.rev cur]
      end
  | String c s' =>
      if isspace c
      then match cur with
           | EmptyString => split_aux EmptyString s'
           | _ => String.rev cur :: split_aux EmptyString s'
           end
      else split_aux (String c cur) s'
  end.

Definition split (s : string) : list string := split_aux EmptyString s.

(** A line boundary of [str.splitlines] below code point 256. *)
Definition islinebreak (c : ascii) : bool :=
  let n := N_of_ascii c in
  ((10 <=? n) && (n <=? 13) || (28 <=? n) && (n <=? 30) || (n =? 133))%N.

(** [s.splitlines()]: a carriage return followed by a line feed is one
    boundary; no empty last line after a final boundary. *)
Fixpoint splitlines_aux (cur : string) (s : string) : list string :=
  match s with
  | EmptyString =>
      match cur with
      | EmptyString => []
      | _ => [String.rev cur]
      end
  | String c s' =>
      if islinebreak c
      then String.rev cur ::
           match s' with
           | String c' s'' =>
               if (Ascii.eqb c "013" && Ascii.eqb c' "010")%bool
               then splitlines_aux EmptyString s''
               else splitlines_aux EmptyString s'
           | EmptyString => []
           end
      else splitlines_aux (String c cur) s'
  end.

Definition splitlines (s : string) : list string := splitlines_aux EmptyString s.

End PyStr.


(** ** Decoded JSON values and Python exceptions *)

(** What [json.loads] can return. [JNull] is Python's [None], which is also
    what [dict.get] answers for a missing key. A JSON object is the list of
    its items in iteration order, each key once. *)
Inductive json : Type :=
| JNull
| JBool (b : bool)
| JInt (n : Z)
| JFloat (f : spec_float)
| JStr (s : string)
| JList (l : list json)
| JDict (d : list (string * json)).

(** The exceptions that can escape the code modelled here, and those a
    subprocess or [json.loads] can raise. *)
Inductive exn : Type :=
| AttributeError
| TypeError
| IndexError
| SystemExit (code : Z)
| JSONDecodeError
| ValueError
| RecursionError
| FileNotFoundError
| UnicodeDecodeError.

Inductive result (A : Type) : Type :=
| Ok (a : A)
| Raise (e : exn).

Arguments Ok {A} a.
Arguments Raise {A} e.

(** Sequencing: the first exception raised ends the computation. It is
    written [x ← r; k] below. *)
#[global] Instance result_bind : MBind result :=
  fun A B (k : A -> result B) (r : result A) =>
    match r with
    | Ok a => k a
    | Raise e => Raise e
    end.

#[global] Instance result_ret : MRet result := fun A (a : A) => Ok a.

Module Py.

(** Truth value of an object, as [if], [not] and [or] test it. *)
Definition truthy (v : json) : bool :=
  match v with
  | JNull => false
  | JBool b => b
  | JInt n => negb (n =? 0)
  | JFloat (S754_zero _) => false
  | JFloat _ => true
  | JStr EmptyString => false
  | JStr _ => true
  | JList [] => false
  | JList _ => true
  | JDict [] => false
  | JDict _ => true
  end.

(** [a or b], both operands already evaluated (they have no effect). *)
Definition or (a b : json) : json := if truthy a then a else b.

Fixpoint lookup (k : string) (d : list (string * json)) : option json :=
  match d with
  | [] => None
  | (k', v) :: d' => if String.eqb k' k then Some v else lookup k d'
  end.

(** [o.get(k, dflt)]: only a dict has the method. *)
Definition get_default (o : json) (k : string) (dflt : json) : result json :=
  match o with
  | JDict d => Ok (default dflt (lookup k d))
  | _ => Raise AttributeError
  end.

(** [o.get(k)] *)
Definition get (o : json) (k : string) : result json := get_default o k JNull.

(** [l[0]] *)
Definition first {A : Type} (l : list A) : result A :=
  match l with
  | x :: _ => Ok x
  | [] => Raise IndexError
  end.

(** [l[-1]] *)
Definition last {A : Type} (l : list A) : result A :=
  match List.rev l with
  | x :: _ => Ok x
  | [] => Raise IndexError
  end.

(** [for x in l: s = body(s, x)], ended by the first exception. *)
Fixpoint for_each {A S : Type} (body : S -> A -> result S) (l : list A) (s : S)
  : result S :=
  match l with
  | [] => Ok s
  | x :: l' => s' ← body s x; for_each body l' s'
  end.

(** [try: r] followed by [except json.JSONDecodeError: h]: the handler
    takes over from that one exception, any other goes on. *)
Definition except_JSONDecodeError {A : Type} (r h : result A) : result A :=
  match r with
  | Raise JSONDecodeError => h
  | _ => r
  end.

(** [v == s] for a string [s]: only an equal string is equal to it. *)
Definition eq_str (v : json) (s : string) : bool :=
  match v with
  | JStr s' => String.eqb s' s
  | _ => false
  end.

(** [a or b] where [a] is a string or [None] and [b] a string. *)
Definition str_or (a : option string) (b : string) : string :=
  match a with
  | Some (String c s) => String c s
  | _ => b
  end.

End Py.

(** ** Dates and times *)

(** An instant, and a duration: microseconds. Instants count from
    0001-01-01T00:00:00 UTC. *)
Definition instant := Z.
Definition timedelta := Z.

(** [datetime.datetime]: the wall-clock fields as one number of microseconds
    since 0001-01-01T00:00:00, and [tzinfo] as the UTC offset of a fixed
    zone, [None] for a naive value. *)
Record datetime : Type := mk_datetime {
  wall : Z;
  tzinfo : option timedelta
}.

(** [dt.timezone.utc] *)
Definition UTC : timedelta := 0.

(** [datetime.max], 9999-12-31T23:59:59.999999, counted from [datetime.min]. *)
Definition datetime_max : Z := 315537897599999999.

(** [d.replace(tzinfo=tz)] *)
Definition replace_tzinfo (d : datetime) (tz : timedelta) : datetime :=
  {| wall := wall d; tzinfo := Some tz |}.

(** [d.astimezone(UTC)] for an aware [d] of wall clock [w] and offset [off],
    as the instant of the UTC value it returns: [d] itself when it is in UTC
    already, else the wall clock less the offset, [None] for the
    [OverflowError] of a value that leaves the range of [datetime]. *)
Definition astimezone_utc (w : Z) (off : timedelta) : option instant :=
  if off =? UTC then Some w
  else
    let u := w - off in
    if (0 <=? u) && (u <=? datetime_max) then Some u else None.

(** ** The host *)

Inductive runtime_choice : Type := Auto | Docker | Podman.

(** The command line of the monitor after [argparse]. [window] is
    [dt.timedelta(hours=args.hours)]. *)
Record args : Type := mk_args {
  prefix : string;
  window : timedelta;
  runtime : runtime_choice;
  host : string;
  pretty : bool
}.

(** What the monitor asks of the machine and of the Python library. *)
Class Host : Type := {
  (** [shutil.which] *)
  which : string -> option string;
  (** the [run] wrapper of the source: exit status, standard output and
      standard error of a finished subprocess, or the exception that
      [Popen] or [communicate] raises (the program is missing, an
      argument has a null character, the output is no text) *)
  run : list string -> result (Z * string * string);
  (** [json.loads]: the decoded value, or the exception it raises,
      [json.JSONDecodeError] for a text that is no JSON *)
  json_loads : string -> result json;
  (** [dt.datetime.fromisoformat]; [None] is any exception it raises *)
  fromisoformat : string -> option datetime;
  (** [d.isoformat()] of a value whose zone is UTC, the [+00:00] included *)
  isoformat : instant -> string;
  (** [os.environ] *)
  environ : gmap string string;
  (** [dt.datetime.now(tz=UTC)] *)
  now_utc : instant
}.

(** ** [EDA_job_monitor.py] *)

Module EDA_job_monitor.

(** The document [main] prints, before [json.dumps]. *)
Record payload : Type := mk_payload {
  timestamp : string;
  payload_host : string;
  ansible_version : string;
  ansible_user : string;
  message_status : string;
  message_jobs : gmap string string
}.

Section Monitor.
Context `{Host}.

(** [if shutil.which(rt)] *)
Definition on_path (rt : string) : bool :=
  match which rt with
  | Some (String _ _) => true
  | _ => false
  end.

Definition which_runtime : result string :=
  if on_path "docker" then Ok "docker"
  else if on_path "podman" then Ok "podman"
  else Raise (SystemExit 2).

Definition parse_time (s : json) : result (option instant) :=
  if negb (Py.truthy s) then Ok None
  else
    match s with
    | JStr s =>
        let s := PyStr.strip s in
        let '(s, tz) :=
          if PyStr.endswith s "Z" then (PyStr.drop_last s, Some UTC)
          else (s, None) in
        let s := if PyStr.contains "." s then PyStr.before "." s else s in
        Ok match fromisoformat s with
           | Some dt_obj =>
               let zone :=
                 match tz, tzinfo dt_obj with
                 | Some tz, _ => tz
                 | None, None => UTC
                 | None, Some off => off
                 end in
               astimezone_utc (wall dt_obj) zone
           | None => None
           end
    | _ => Raise AttributeError
    end.

(** The body of the loop of [list_containers] over the lines of the
    output. *)
Definition decode_line (containers : list json) (line : string) : result (list json) :=
  let line := PyStr.strip line in
  match line with
  | EmptyString => Ok containers
  | _ =>
      Py.except_JSONDecodeError
        (v ← json_loads line; Ok (containers ++ [v])%list)
        (Ok containers)
  end.

Definition list_containers (runtime : string) : result (list json) :=
  '(code, out, err) ← run [runtime; "ps"; "-a"; "--format"; "{{json .}}"];
  if negb (code =? 0) then Raise (SystemExit 3)
  else Py.for_each decode_line (PyStr.splitlines out) [].

Definition inspect_container (runtime cid : string) : result json :=
  '(code, out, err) ← run [runtime; "inspect"; cid];
  if negb (code =? 0) then Ok (JDict [])
  else
    Py.except_JSONDecodeError
      (data ← json_loads out;
       match data with
       | JList l => if Py.truthy data then Py.first l else Ok (JDict [])
       | _ => Ok (JDict [])
       end)
      (Ok (JDict [])).

(** [max(candidates)] of a non-empty list, [None] for an empty one. *)
Fixpoint latest (candidates : list instant) : option instant :=
  match candidates with
  | [] => None
  | t :: l => match latest l with
              | Some m => Some (Z.max t m)
              | None => Some t
              end
  end.

Definition container_last_event_ts (info : json) : result (option instant) :=
  st ← Py.get_default info "State" (JDict []);
  let state := Py.or st (JDict []) in
  fa ← Py.get state "FinishedAt";
  finished ← parse_time fa;
  sa ← Py.get state "StartedAt";
  started ← parse_time sa;
  cr ← Py.get info "Created";
  created ← parse_time cr;
  let candidates := omap id [finished; started; created] in
  Ok (latest candidates).

(** The [for token in ...] loop of [get_ansible_version]. *)
Fixpoint first_numeric (tokens : list string) : result (option string) :=
  match tokens with
  | [] => Ok None
  | token :: l =>
      c ← Py.first (list_ascii_of_string token);
      if PyStr.isdigit c then Ok (Some token) else first_numeric l
  end.

Definition get_ansible_version : result (option string) :=
  found ←
    match which "ansible" with
    | Some (String c p) =>
        let ansible_bin := String c p in
        '(code, out, err) ← run [ansible_bin; "--version"];
        if (code =? 0) && negb (String.eqb out "") then
          first_line ← Py.first (PyStr.splitlines out);
          first_numeric
            (PyStr.split
               (PyStr.replace_char "]" " " (PyStr.replace_char "[" " " first_line)))
        else Ok None
    | _ => Ok None
    end;
  match found with
  | Some token => Ok (Some token)
  | None => Ok (environ !! "ANSIBLE_VERSION")
  end.

Definition get_ansible_user : string :=
  Py.str_or (environ !! "ANSIBLE_USER")
    (Py.str_or (environ !! "USER")
       (Py.str_or (environ !! "USERNAME") "unknown")).

(** The body of the first loop of [main]: one listed record [c]. Both
    operands of an [or] are read at once: the second [get] raises only
    where the first one has. *)
Definition select_target (prefix : string) (target : list (string * json)) (c : json)
  : result (list (string * json)) :=
  names ← Py.get c "Names";
  name1 ← Py.get c "Name";
  let name := Py.or (Py.or names name1) (JStr "") in
  let name :=
    match name with
    | JList l => match l with
                 | x :: _ => x
                 | [] => JStr ""
                 end
    | _ => name
    end in
  match name with
  | JStr name =>
      if PyStr.startswith name prefix then
        id1 ← Py.get c "ID";
        id2 ← Py.get c "Id";
        Ok (target ++ [(name, Py.or (Py.or id1 id2) (JStr ""))])%list
      else Ok target
  | _ => Ok target
  end.

(** [last_ts.replace(tzinfo=UTC).isoformat().replace('+00:00', 'Z')] *)
Definition render (t : instant) : string :=
  PyStr.replace "+00:00" "Z" (isoformat t).

(** The body of the second loop of [main]: one selected container. The
    identifier goes to the command line of the engine, which takes
    strings. *)
Definition check_target (runtime : string) (window : timedelta) (now : instant)
    (st : gmap string string * bool) (t : string * json)
  : result (gmap string string * bool) :=
  let '(jobs, unhealthy) := st in
  let '(name, cid) := t in
  cid ← match cid with
        | JStr cid => Ok cid
        | _ => Raise TypeError
        end;
  info ← inspect_container runtime cid;
  last_ts ← container_last_event_ts info;
  match last_ts with
  | None => Ok (<[name := "last_seen: unknown"]> jobs, true)
  | Some last_ts =>
      if now - last_ts <=? window
      then Ok (<[name := "executed_at: " ++ render last_ts]> jobs, unhealthy)
      else Ok (<[name := "last_seen: " ++ render last_ts]> jobs, true)
  end.

(** [which_runtime() if args.runtime == "auto" else args.runtime] *)
Definition select_runtime (a : args) : result string :=
  match runtime a with
  | Auto => which_runtime
  | Docker => Ok "docker"
  | Podman => Ok "podman"
  end.

(** The first loop of [main], from an empty [target]. *)
Definition select_targets (prefix : string) (containers : list json)
  : result (list (string * json)) :=
  Py.for_each (select_target prefix) containers [].

(** The second loop of [main], from no job and [unhealthy = False]. *)
Definition check_targets (runtime : string) (window : timedelta) (now : instant)
    (target : list (string * json)) : result (gmap string string * bool) :=
  Py.for_each (check_target runtime window now) target (∅, false).

Definition main (a : args) : result payload :=
  runtime ← select_runtime a;
  containers ← list_containers runtime;
  target ← select_targets (prefix a) containers;
  let now := now_utc in
  '(jobs, unhealthy) ← check_targets runtime (window a) now target;
  let status := if negb unhealthy then "healthy" else "unhealthy" in
  version ← get_ansible_version;
  Ok {| timestamp := PyStr.replace "+00:00" "Z" (isoformat now);
        payload_host := host a;
        ansible_version := Py.str_or version "unknown";
        ansible_user := get_ansible_user;
        message_status := status;
        message_jobs := jobs |}.

End Monitor.

End EDA_job_monitor.

(** ** The words of the specification, for the monitor *)

Module MonitorSpec.
Import EDA_job_monitor.

(** The name field of a listed record after normalisation: the first of
    [Names] and [Name] that holds something, itself when it is a string,
    its first element when it is a list of candidate names; the empty
    string when neither holds anything. *)
Definition display_name (d : list (string * json)) : option string :=
  let names := default JNull (Py.lookup "Names" d) in
  let name := default JNull (Py.lookup "Name" d) in
  match Py.or (Py.or names name) (JStr "") with
  | JStr n => Some n
  | JList (JStr n :: _) => Some n
  | _ => None
  end.

(** A record has a usable name when that name is a string and not empty. *)
Definition has_name (d : list (string * json)) : Prop :=
  exists n, display_name d = Some n /\ n <> "".

(** The container identifier of a listed record: the first of [ID] and
    [Id] that holds something, the empty string when neither does. *)
Definition identifier (d : list (string * json)) : json :=
  let id1 := default JNull (Py.lookup "ID" d) in
  let id2 := default JNull (Py.lookup "Id" d) in
  Py.or (Py.or id1 id2) (JStr "").

Section Spec.
Context `{Host}.

(** The environment variable [name] yields [value]: it is set, and not
    to the empty string. *)
Definition yields (name value : string) : Prop :=
  environ !! name = Some value /\ value <> "".

(** The environment variable [name] yields nothing. *)
Definition silent (name : string) : Prop := forall value, ~ yields name value.

(** What a line of the listing contributes: the value it decodes to
    once it is stripped, nothing when it is blank or no JSON. *)
Definition decodes (line : string) : option json :=
  match PyStr.strip line with
  | EmptyString => None
  | s => match json_loads s with
         | Ok v => Some v
         | Raise _ => None
         end
  end.

(** On the line, [json.loads] raises something else than
    [json.JSONDecodeError]. *)
Definition breaks (line : string) : Prop :=
  PyStr.strip line <> ""
  /\ exists e, json_loads (PyStr.strip line) = Raise e /\ e <> JSONDecodeError.

(** The containers that match the prefix filter in a run with the
    command line [a]. *)
Definition matched (a : args) : result (list (string * json)) :=
  runtime ← select_runtime a;
  containers ← list_containers runtime;
  select_targets (prefix a) containers.

(** The selected container [t] is classified unknown, or stale: its
    inspection resolves to no timestamp, or to one that lies further
    back than the window. *)
Definition stale_or_unknown (runtime : string) (window : timedelta) (now : instant)
    (t : string * json) : Prop :=
  exists cid info,
    t.2 = JStr cid /\ inspect_container runtime cid = Ok info /\
    (container_last_event_ts info = Ok None \/
     exists ts, container_last_event_ts info = Ok (Some ts) /\ window < now - ts).

End Spec.

End MonitorSpec.

(** ** [parse_sshd_config.py] *)

Module parse_sshd_config.

(** The two module-level dictionaries and the file [json_log.json].
    [end_result] is the dictionary under the one key ["message"] of the
    global of that name; [json_log] lists what [write_to_json] has written,
    the latest first, so its head is the content of the file. *)
Record world : Type := mk_world {
  end_result : gmap string string;
  message : gmap string string;
  json_log : list (gmap string string)
}.

(** The globals when the module has been loaded. *)
Definition initial : world :=
  {| end_result := {["status" := "non-compliant"]};
     message := ∅;
     json_log := [] |}.

(** [write_to_json(end_result)] *)
Definition write_to_json (w : world) : world :=
  {| end_result := end_result w;
     message := message w;
     json_log := end_result w :: json_log w |}.

(** [key in line and "#" not in line] *)
Definition matches (key line : string) : bool :=
  PyStr.contains key line && negb (PyStr.contains "#" line).

(** The body of the inner loop: one [line] for the directive [key] whose
    expected value [defaults[key]] is [expected]. *)
Definition scan_line (key : string) (expected : json) (w : world) (line : string)
  : result world :=
  if matches key line then
    let splited_line := PyStr.split line in
    observed ← Py.last splited_line;
    if Py.eq_str expected observed then
      let message' := <[key := observed]> (message w) in
      Ok {| end_result := message' ∪ end_result w;
            message := message';
            json_log := json_log w |}
    else
      let message' := <[key := observed]> (message w) in
      Ok (write_to_json
            {| end_result := <["status" := "compliant"]> (end_result w);
               message := message';
               json_log := json_log w |})
  else Ok w.

(** The body of the outer loop: every line for one item of [defaults]. *)
Definition scan_key (all_lines : list string) (w : world) (item : string * json)
  : result world :=
  Py.for_each (scan_line (fst item) (snd item)) all_lines w.

(** [get_ssh_config_log] from the state [w] of the globals, given what
    [f.readlines()] and [json.load(f)] have returned. A dict enumerates each
    key once, with [defaults[key]] the value it is paired with. *)
Definition get_ssh_config_log (all_lines : list string) (defaults : json) (w : world)
  : result world :=
  match defaults with
  | JDict d =>
      w' ← Py.for_each (scan_key all_lines) d w;
      Ok (write_to_json w')
  | _ => Raise AttributeError
  end.

(** The status of the report. *)
Definition status (w : world) : option string := end_result w !! "status".

End parse_sshd_config.

(** ** The words of the specification, for the checker *)

Module CheckerSpec.
Import parse_sshd_config.

(** [line] is a non-comment line that matches the directive [key], and its
    observed value, the last token of the line, is [tok]. *)
Definition observes (key line tok : string) : Prop :=
  matches key line = true /\ Py.last (PyStr.split line) = Ok tok.

(** The observed value of [line] for [key] differs from [expected]. *)
Definition differs (key : string) (expected : json) (line : string) : Prop :=
  exists tok, observes key line tok /\ Py.eq_str expected tok = false.

(** The observed value of [line] for [key] equals [expected]. *)
Definition agrees (key : string) (expected : json) (line : string) : Prop :=
  exists tok, observes key line tok /\ Py.eq_str expected tok = true.


(** For at least one expected directive, some line differs. *)
Definition some_differs (all_lines : list string) (d : list (string * json)) : Prop :=
  exists key expected line,
    (key, expected) ∈ d /\ line ∈ all_lines /\ differs key expected line.

(** [differs], as the test the code makes. *)
Definition differsb (key : string) (expected : json) (line : string) : bool :=
  matches key line
  && match Py.last (PyStr.split line) with
     | Ok tok => negb (Py.eq_str expected tok)
     | Raise _ => false
     end.

(** The number of pairs of an expected directive and a line on which the
    observed value differs. *)
Definition differing (all_lines : list string) (d : list (string * json)) : nat :=
  list_sum
    (List.map (fun item => length (List.filter (differsb item.1 item.2) all_lines)) d).

(** [line] is a comment line for the checker: it has a [#] somewhere. *)
Definition is_comment (line : string) : bool := PyStr.contains "#" line.

(** [v] is the observed value of some line of the file for the expected
    directive [k]. *)
Definition observed (all_lines : list string) (d : list (string * json))
    (k v : string) : Prop :=
  exists e line, (k, e) ∈ d /\ line ∈ all_lines /\ observes k line v.

(** Every value the accumulator holds, and every entry of the report but
    the status, has been observed in the file. *)
Definition sound (all_lines : list string) (d : list (string * json)) (w : world) : Prop :=
  (forall k v, message w !! k = Some v -> observed all_lines d k v)
  /\ (forall k v, end_result w !! k = Some v -> k = "status" \/ observed all_lines d k v).

End CheckerSpec.

(** ** A host for worked examples *)

(** The proleptic Gregorian calendar of [datetime], and the ISO-8601 forms
    the engines print: [YYYY-MM-DD], one separator, [HH:MM:SS], then nothing
    or an offset [+HH:MM] or [-HH:MM]. Every version of the Python library
    reads these forms alike; the forms it reads besides are left out, so
    this host refuses them. *)
Module Calendar.

Definition us_per_second : Z := 1000000.
Definition us_per_day : Z := 86400 * us_per_second.

(** Days from 0001-01-01 to the given date. *)
Definition days_of_ymd (y m d : Z) : Z :=
  let y' := if m <=? 2 then y - 1 else y in
  let era := y' / 400 in
  let yoe := y' - era * 400 in
  let mp := if m <=? 2 then m + 9 else m - 3 in
  let doy := (153 * mp + 2) / 5 + d - 1 in
  let doe := yoe * 365 + yoe / 4 - yoe / 100 + doy in
  era * 146097 + doe - 306.

(** The date that many days after 0001-01-01. *)
Definition ymd_of_days (n : Z) : Z * Z * Z :=
  let z := n + 306 in
  let era := z / 146097 in
  let doe := z - era * 146097 in
  let yoe := (doe - doe / 1460 + doe / 36524 - doe / 146096) / 365 in
  let doy := doe - (365 * yoe + yoe / 4 - yoe / 100) in
  let mp := (5 * doy + 2) / 153 in
  let d := doy - (153 * mp + 2) / 5 + 1 in
  let m := if mp <? 10 then mp + 3 else mp - 9 in
  let y := yoe + era * 400 in
  (if m <=? 2 then y + 1 else y, m, d).

Definition is_leap (y : Z) : bool :=
  (y mod 4 =? 0) && (negb (y mod 100 =? 0) || (y mod 400 =? 0)).

Definition days_in_month (y m : Z) : Z :=
  if m =? 2 then (if is_leap y then 29 else 28)
  else if (m =? 4) || (m =? 6) || (m =? 9) || (m =? 11) then 30
  else 31.

Definition digit (c : ascii) : option Z :=
  let n := Z.of_N (N_of_ascii c) in
  if (48 <=? n) && (n <=? 57) then Some (n - 48) else None.

(** The number a run of ASCII digits writes. *)
Fixpoint number (acc : Z) (l : list ascii) : option Z :=
  match l with
  | [] => Some acc
  | c :: l' => d ← digit c; number (10 * acc + d) l'
  end.

Definition char_is (c : ascii) (x : string) : bool := String.eqb (String c "") x.

(** [+HH:MM] or [-HH:MM], as microseconds. *)
Definition parse_offset (l : list ascii) : option timedelta :=
  match l with
  | [sign; h1; h2; c; m1; m2] =>
      hh ← number 0 [h1; h2];
      mm ← number 0 [m1; m2];
      if char_is c ":" && (hh <=? 23) && (mm <=? 59) then
        let off := (hh * 3600 + mm * 60) * us_per_second in
        if char_is sign "+" then Some off
        else if char_is sign "-" then Some (- off)
        else None
      else None
  | _ => None
  end.

Definition iso_parse (s : string) : option datetime :=
  match list_ascii_of_string s with
  | y1 :: y2 :: y3 :: y4 :: c1 :: m1 :: m2 :: c2 :: d1 :: d2 :: sep
      :: h1 :: h2 :: c3 :: n1 :: n2 :: c4 :: s1 :: s2 :: rest =>
      y ← number 0 [y1; y2; y3; y4];
      m ← number 0 [m1; m2];
      d ← number 0 [d1; d2];
      hh ← number 0 [h1; h2];
      mi ← number 0 [n1; n2];
      ss ← number 0 [s1; s2];
      if char_is c1 "-" && char_is c2 "-" && char_is c3 ":" && char_is c4 ":"
         && (1 <=? y) && (1 <=? m) && (m <=? 12)
         && (1 <=? d) && (d <=? days_in_month y m)
         && (hh <=? 23) && (mi <=? 59) && (ss <=? 59)
      then
        let w := days_of_ymd y m d * us_per_day
                 + (hh * 3600 + mi * 60 + ss) * us_per_second in
        match rest with
        | [] => Some {| wall := w; tzinfo := None |}
        | _ => off ← parse_offset rest; Some {| wall := w; tzinfo := Some off |}
        end
      else None
  | _ => None
  end.

Definition digit_char (d : Z) : ascii := ascii_of_N (Z.to_N (48 + d mod 10)).

(** [n] in [width] decimal digits, zero-padded. *)
Fixpoint pad (width : nat) (n : Z) (acc : string) : string :=
  match width with
  | O => acc
  | S w => pad w (n / 10) (String (digit_char n) acc)
  end.

(** [isoformat] of the UTC value at instant [t]. *)
Definition iso_print (t : instant) : string :=
  let days := t / us_per_day in
  let rest := t mod us_per_day in
  let secs := rest / us_per_second in
  let us := rest mod us_per_second in
  let '(y, m, d) := ymd_of_days days in
  pad 4 y "" ++ "-" ++ pad 2 m "" ++ "-" ++ pad 2 d "" ++ "T"
  ++ pad 2 (secs / 3600) "" ++ ":" ++ pad 2 (secs / 60 mod 60) "" ++ ":"
  ++ pad 2 (secs mod 60) ""
  ++ (if us =? 0 then "" else "." ++ pad 6 us "")
  ++ "+00:00".

End Calendar.

(** One machine on 2025-07-02 at noon UTC: docker on the search path, four
    containers listed, three of them jobs, and the user [awx]. *)
Module Example.

Definition dq : string := String "034" "".
Definition nl : string := String "010" "".

(** [s] between double quotes. *)
Definition q (s : string) : string := dq ++ s ++ dq.

Definition summary (cid name : string) : string :=
  "{" ++ q "ID" ++ ":" ++ q cid ++ "," ++ q "Names" ++ ":" ++ q name ++ "}".

Definition detail (started finished created : string) : string :=
  "[{" ++ q "State" ++ ":{" ++ q "StartedAt" ++ ":" ++ q started ++ ","
  ++ q "FinishedAt" ++ ":" ++ q finished ++ "}," ++ q "Created" ++ ":"
  ++ q created ++ "}]".

Definition summary_json (cid name : string) : json :=
  JDict [("ID", JStr cid); ("Names", JStr name)].

Definition state_dict (started finished : string) : list (string * json) :=
  [("StartedAt", JStr started); ("FinishedAt", JStr finished)].

Definition detail_dict (started finished created : string) : list (string * json) :=
  [("State", JDict (state_dict started finished)); ("Created", JStr created)].

Definition detail_json (started finished created : string) : json :=
  JList [JDict (detail_dict started finished created)].

(** The first job finished thirty hours before noon of 2025-07-02. *)
Definition job1 : string * string * string :=
  ("2025-07-01T01:00:00.123456789Z", "2025-07-01T06:00:00.5Z", "2025-07-01T00:59:59Z").

(** The second job was started again after it had finished. *)
Definition job2 : string * string * string :=
  ("2025-07-02T09:00:00Z", "2025-07-02T08:00:00Z", "2025-07-02T07:59:58Z").

(** The third job finished twenty-four hours before that noon, to the
    second. *)
Definition job3 : string * string * string :=
  ("2025-07-01T11:00:00Z", "2025-07-01T12:00:00Z", "2025-07-01T10:59:59Z").

Definition detail_of (j : string * string * string) : string :=
  detail j.1.1 j.1.2 j.2.

Definition detail_json_of (j : string * string * string) : json :=
  detail_json j.1.1 j.1.2 j.2.

Definition ps_lines : list (string * json) :=
  [(summary "1f3a" "ansible-job-1", summary_json "1f3a" "ansible-job-1");
   (summary "77c0" "ansible-job-2", summary_json "77c0" "ansible-job-2");
   (summary "9d2e" "other-job", summary_json "9d2e" "other-job");
   (summary "b5e1" "ansible-job-3", summary_json "b5e1" "ansible-job-3")].

(** The command lines the machine answers with status zero, each with its
    output. Any other command of a program it has ends with status one;
    a program it has not cannot be started. *)
Definition commands : list (string * string) :=
  [("docker ps -a --format {{json .}}",
    String.concat nl (List.map fst ps_lines) ++ nl);
   ("docker inspect 1f3a", detail_of job1 ++ nl);
   ("docker inspect 77c0", detail_of job2 ++ nl);
   ("docker inspect b5e1", detail_of job3 ++ nl);
   ("/usr/bin/ansible --version", "ansible [core 2.15.0]" ++ nl)].

(** The texts [json.loads] is given on this machine, each with its
    value; it is given no other text that decodes. *)
Definition documents : list (string * json) :=
  (ps_lines ++ [((detail_of job1 ++ nl)%string, detail_json_of job1);
                ((detail_of job2 ++ nl)%string, detail_json_of job2);
                ((detail_of job3 ++ nl)%string, detail_json_of job3)])%list.

Fixpoint assoc {A : Type} (k : string) (l : list (string * A)) : option A :=
  match l with
  | [] => None
  | (k', v) :: l' => if String.eqb k' k then Some v else assoc k l'
  end.

#[local] Instance machine : Host := {|
  which := fun name =>
    if String.eqb name "docker" then Some "/usr/bin/docker"
    else if String.eqb name "ansible" then Some "/usr/bin/ansible"
    else None;
  run := fun cmd =>
    match cmd with
    | program :: _ =>
        if String.eqb program "docker" || String.eqb program "/usr/bin/ansible" then
          match assoc (String.concat " " cmd) commands with
          | Some out => Ok (0, out, "")
          | None => Ok (1, "", "Error: no such object")
          end
        else Raise FileNotFoundError
    | [] => Raise IndexError
    end;
  json_loads := fun text =>
    match assoc text documents with
    | Some v => Ok v
    | None => Raise JSONDecodeError
    end;
  fromisoformat := Calendar.iso_parse;
  isoformat := Calendar.iso_print;
  environ := {["USER" := "awx"]};
  now_utc := 63887054400000000
|}.

Definition day : timedelta := 24 * 3600 * Calendar.us_per_second.

(** The default command line, on the host [eda-01]. *)
Definition cli : args :=
  {| prefix := "ansible"; window := day;
     runtime := Auto; host := "eda-01"; pretty := false |}.

(** The same with the engine given by name, one the machine has not. *)
Definition cli_podman : args :=
  {| prefix := "ansible"; window := day;
     runtime := Podman; host := "eda-01"; pretty := false |}.

(** The same with a prefix that no container has. *)
Definition cli_nightly : args :=
  {| prefix := "nightly"; window := day;
     runtime := Auto; host := "eda-01"; pretty := false |}.

(** A listed record with a name and no identifier. *)
Definition unidentified : list (string * json) := [("Names", JStr "ansible-job-1")].

(** Two configuration files and two files of defaults for the checker. *)
Definition sshd_config : list string :=
  ["PermitRootLogin yes" ++ nl; "Port 22" ++ nl; "# Port 2222" ++ nl].

Definition sshd_defaults : list (string * json) :=
  [("PermitRootLogin", JStr "no"); ("Port", JStr "22")].

Definition sshd_config_twice : list string :=
  ["PermitRootLogin no" ++ nl; "PermitRootLogin yes" ++ nl].

Definition sshd_defaults_root : list (string * json) :=
  [("PermitRootLogin", JStr "no")].

Definition status_config : list string := ["status x" ++ nl].

Definition status_defaults : list (string * json) := [("status", JStr "x")].

(** A file whose one directive differs, and one with a blank line. *)
Definition sshd_config_port : list string := ["Port 2222" ++ nl].

Definition sshd_defaults_port : list (string * json) := [("Port", JStr "22")].



(** The file of the first example once it has been put right. *)
Definition sshd_config_fixed : list string := ["PermitRootLogin no" ++ nl].

(** What the listing of the engine decodes to, and what is selected of
    it. *)
Definition listed : list json := List.map snd ps_lines.

Definition selected : list (string * json) :=
  [("ansible-job-1", JStr "1f3a"); ("ansible-job-2", JStr "77c0");
   ("ansible-job-3", JStr "b5e1")].

End Example.

(** * Properties *)

(** ** Strings *)

Module PyStrFacts.
Import PyStr.

#[local] Arguments String.append !_ _ / : simpl nomatch.

Lemma append_assoc (a b c : string) : (a ++ b) ++ c = a ++ b ++ c.
Proof. induction a as [|x a IH]; simpl; [reflexivity | now rewrite IH]. Qed.

Lemma isspace_dot : isspace "." = false.
Proof. reflexivity. Qed.

(** White space is stripped on the right only up to the last character
    that is none. *)
Lemma rstrip_visible (a : string) (c : ascii) :
  isspace c = false -> rstrip (a ++ String c "") = a ++ String c "".
Proof.
  intros Hc. induction a as [|x a IH]; simpl.
  - now rewrite Hc.
  - rewrite IH. destruct (a ++ String c "") eqn:E; [|reflexivity].
    destruct a; discriminate.
Qed.

(** On the left, stripping stops at the first character of [b] at the
    latest when that one is no white space. *)
Lemma lstrip_app (a b : string) (c : ascii) :
  isspace c = false -> lstrip (a ++ String c b) = lstrip a ++ String c b.
Proof.
  intros Hc. induction a as [|x a IH]; simpl.
  - now rewrite Hc.
  - destruct (isspace x); [exact IH | reflexivity].
Qed.

Lemma endswith_last (a : string) (c z : ascii) :
  endswith (a ++ String c "") (String z "") = Ascii.eqb c z.
Proof.
  induction a as [|x a IH]; simpl.
  - now destruct (Ascii.eqb c z).
  - rewrite IH. destruct (a ++ String c "") eqn:E.
    + destruct a; discriminate.
    + now destruct (Ascii.eqb x z).
Qed.

Lemma drop_last_app (a : string) (c : ascii) : drop_last (a ++ String c "") = a.
Proof.
  induction a as [|x a IH]; simpl; [reflexivity|].
  rewrite IH. destruct (a ++ String c "") eqn:E; [|reflexivity].
  destruct a; discriminate.
Qed.

Lemma before_app (a b : string) (c : ascii) :
  before c (a ++ String c b) = before c a.
Proof.
  induction a as [|x a IH]; simpl.
  - now rewrite Ascii.eqb_refl.
  - destruct (Ascii.eqb x c); [reflexivity | now rewrite IH].
Qed.

Lemma startswith_nil (s : string) : startswith s "" = true.
Proof. now destruct s. Qed.

Lemma contains_char_cons (c x : ascii) (s : string) :
  contains (String c "") (String x s) = Ascii.eqb c x || contains (String c "") s.
Proof. simpl. rewrite startswith_nil. now destruct (Ascii.eqb c x). Qed.

Lemma before_none (c : ascii) (s : string) :
  contains (String c "") s = false -> before c s = s.
Proof.
  induction s as [|x s IH]; [reflexivity|].
  rewrite contains_char_cons. intros [Hx Hs]%orb_false_elim.
  simpl. rewrite Ascii.eqb_sym, Hx. now rewrite IH.
Qed.

(** The cut at the first dot, with its test. *)
Lemma cut_before (c : ascii) (s : string) :
  (if contains (String c "") s then before c s else s) = before c s.
Proof.
  destruct (contains (String c "") s) eqn:E; [reflexivity|].
  symmetry. now apply before_none.
Qed.

Lemma contains_lstrip (c : ascii) (s : string) :
  contains (String c "") s = false -> contains (String c "") (lstrip s) = false.
Proof.
  induction s as [|x s IH]; [reflexivity|].
  intros Hs. cbn [lstrip]. destruct (isspace x); [|exact Hs].
  apply IH. rewrite contains_char_cons in Hs. now apply orb_false_elim in Hs.
Qed.

Lemma rev_app_nonempty (s1 s2 : string) : s2 <> "" -> String.rev_app s1 s2 <> "".
Proof.
  revert s2. induction s1 as [|a s1 IH]; intros s2 Hs2; [exact Hs2|].
  cbn. now apply IH.
Qed.

Lemma rev_nonempty (s : string) : s <> "" -> String.rev s <> "".
Proof.
  destruct s as [|a s]; [congruence|]. intros _.
  unfold String.rev. cbn. now apply rev_app_nonempty.
Qed.

(** No word that [split] returns is empty. *)
Lemma split_aux_nonempty (s cur : string) :
  Forall (fun t => t <> "") (split_aux cur s).
Proof.
  revert cur. induction s as [|c s IH]; intros cur; cbn [split_aux].
  - destruct cur; [constructor|].
    constructor; [now apply rev_nonempty | constructor].
  - destruct (isspace c); [|apply IH].
    destruct cur; [apply IH|].
    constructor; [now apply rev_nonempty | apply IH].
Qed.

Lemma splitlines_aux_nonempty (s cur : string) :
  cur <> "" -> splitlines_aux cur s <> [].
Proof.
  revert cur. induction s as [|c s IH]; intros cur Hcur; cbn [splitlines_aux].
  - now destruct cur.
  - destruct (islinebreak c); [discriminate|]. now apply IH.
Qed.

(** A text that is not empty has a first line. *)
Lemma splitlines_nonempty (s : string) : s <> "" -> splitlines s <> [].
Proof.
  destruct s as [|c s]; [congruence|]. intros _.
  unfold splitlines. cbn [splitlines_aux].
  destruct (islinebreak c); [discriminate|].
  now apply splitlines_aux_nonempty.
Qed.


End PyStrFacts.

(** ** The job monitor *)

Module MonitorFacts.
Import PyStr PyStrFacts EDA_job_monitor.

#[local] Arguments String.append !_ _ / : simpl nomatch.

Lemma truthy_app (a : string) (c : ascii) (b : string) :
  Py.truthy (JStr (a ++ String c b)) = true.
Proof. now destruct a. Qed.

(** An ASCII digit is no white space and no [Z]. *)
Lemma digit_visible (c : ascii) :
  is_Some (Calendar.digit c) -> isspace c = false /\ Ascii.eqb c "Z" = false.
Proof.
  destruct c as [[] [] [] [] [] [] [] []]; vm_compute;
    intros [? ?]; try discriminate; split; reflexivity.
Qed.

Section Facts.
Context `{Host}.

(** A string that ends in [Z]: what stands before the first dot, read
    by the library, is taken as a UTC wall clock. *)
Lemma parse_time_zulu (a : string) :
  parse_time (JStr (a ++ "Z")) =
  Ok match fromisoformat (before "." (lstrip a)) with
     | Some d => astimezone_utc (wall d) UTC
     | None => None
     end.
Proof.
  unfold parse_time. rewrite truthy_app. cbn [negb].
  unfold strip. rewrite rstrip_visible by reflexivity.
  rewrite lstrip_app by reflexivity.
  rewrite endswith_last, drop_last_app. cbn [Ascii.eqb Bool.eqb].
  rewrite cut_before. reflexivity.
Qed.

(** A string whose last character is neither white space nor [Z]: the
    zone is the one the library reads, UTC when it reads none. *)
Lemma parse_time_plain (a : string) (c : ascii) :
  isspace c = false -> Ascii.eqb c "Z" = false ->
  parse_time (JStr (a ++ String c "")) =
  Ok match fromisoformat (before "." (lstrip a ++ String c "")) with
     | Some d => astimezone_utc (wall d) (default UTC (tzinfo d))
     | None => None
     end.
Proof.
  intros Hsp HZ. unfold parse_time. rewrite truthy_app. cbn [negb].
  unfold strip. rewrite rstrip_visible by assumption.
  rewrite lstrip_app by assumption.
  rewrite endswith_last, HZ, cut_before.
  destruct (fromisoformat _) as [d|]; [|reflexivity].
  now destruct (tzinfo d).
Qed.

(** C6. For every timestamp string that ends in a literal [Z] and has a
    fractional-second part, a dot and then [d], any number of digits
    (indeed any characters), [parse_time] yields the same UTC instant as
    on the same string with the fractional part removed. *)
Theorem parse_time_fraction_removed (p d : string) :
  parse_time (JStr (p ++ "." ++ d ++ "Z")) = parse_time (JStr (p ++ "Z")).
Proof.
  change (p ++ "." ++ d ++ "Z") with (p ++ String "." (d ++ "Z")).
  replace (p ++ String "." (d ++ "Z")) with ((p ++ String "." d) ++ "Z")
    by (now rewrite append_assoc).
  rewrite !parse_time_zulu.
  rewrite (lstrip_app p d ".") by reflexivity.
  now rewrite before_app.
Qed.

(** C9. A timestamp string that does not end in [Z] and carries a
    fractional part [frac] and then a numeric UTC offset (the text
    [off] and a last digit [c]) after a wall-clock part [w] without a
    dot: [parse_time] cuts at the first dot, so the library reads [w]
    alone, and the wall clock it reads there is the instant returned,
    taken as UTC. That instant is later, by the offset [o] that was
    discarded, than the instant [u] the same wall clock stands for at
    offset [o]. *)
Theorem parse_time_offset_discarded (w frac off : string) (c : ascii) (d : datetime) :
  contains "." w = false ->
  is_Some (Calendar.digit c) ->
  fromisoformat (lstrip w) = Some d ->
  tzinfo d = None ->
  parse_time (JStr (w ++ "." ++ frac ++ off ++ String c "")) = Ok (Some (wall d))
  /\ forall (o : timedelta) (u : instant),
       astimezone_utc (wall d) o = Some u -> wall d - u = o.
Proof.
  intros Hw [Hsp HZ]%digit_visible Hd Hnaive. split.
  - change (w ++ "." ++ frac ++ off ++ String c "")
      with (w ++ String "." (frac ++ off ++ String c "")).
    replace (w ++ String "." (frac ++ off ++ String c ""))
      with ((w ++ String "." (frac ++ off)) ++ String c "")
      by (rewrite append_assoc; simpl; now rewrite append_assoc).
    rewrite parse_time_plain by assumption.
    rewrite (lstrip_app w (frac ++ off) ".") by reflexivity.
    rewrite append_assoc. simpl. rewrite before_app.
    rewrite before_none by (now apply contains_lstrip).
    rewrite Hd, Hnaive. reflexivity.
  - intros o u. unfold astimezone_utc, UTC.
    destruct (o =? 0) eqn:Ho.
    + intros [= <-]. apply Z.eqb_eq in Ho. lia.
    + destruct ((0 <=? wall d - o) && (wall d - o <=? datetime_max));
        [|discriminate].
      intros [= <-]. lia.
Qed.

(** *** Timestamp resolution *)

Lemma latest_spec (l : list instant) (m : instant) :
  latest l = Some m -> m ∈ l /\ forall t, t ∈ l -> t <= m.
Proof.
  revert m. induction l as [|x l IH]; intros m; [discriminate|].
  cbn [latest]. destruct (latest l) as [m'|] eqn:E.
  - intros [= <-]. destruct (IH m' eq_refl) as [Hin Hmax]. split.
    + destruct (Z.max_spec x m') as [[_ ->]|[_ ->]];
        [now apply list_elem_of_further | now apply list_elem_of_here].
    + intros t [->|Ht]%elem_of_cons; [lia|]. specialize (Hmax t Ht). lia.
  - intros [= <-]. destruct l as [|y l]; [|cbn in E; now destruct (latest l)].
    split; [apply list_elem_of_here|].
    intros t [->|Ht]%elem_of_cons; [lia | now apply elem_of_nil in Ht].
Qed.

Lemma latest_None (l : list instant) : latest l = None <-> l = [].
Proof.
  destruct l as [|x l]; [easy|]. cbn. now destruct (latest l).
Qed.

Lemma or_dict (sd : list (string * json)) : Py.or (JDict sd) (JDict []) = JDict sd.
Proof. now destruct sd. Qed.

Lemma candidates_elem (f s c : option instant) (t : instant) :
  t ∈ omap id [f; s; c] <-> Some t ∈ [f; s; c].
Proof.
  rewrite list_elem_of_omap. split.
  - intros (o & Ho & Hid). cbn in Hid. now subst o.
  - intros Ht. now exists (Some t).
Qed.

(** C1. For every container detail mapping whose [State] is a mapping
    and whose fields [State.FinishedAt], [State.StartedAt] and [Created]
    are read by [parse_time] as [f], [s] and [c] (an instant where the
    field parses, nothing where it does not), the resolved timestamp is
    the latest of the instants among [f], [s] and [c], and nothing only
    when there is none: it is one of them and no other is later. The
    order of precedence plays no part; in particular, when
    [FinishedAt] and [StartedAt] both parse and [StartedAt] is the later
    one, the result is [StartedAt], unless [Created] is later still. *)
Theorem container_last_event_ts_latest
    (d sd : list (string * json)) (f s c : option instant) :
  Py.lookup "State" d = Some (JDict sd) ->
  parse_time (default JNull (Py.lookup "FinishedAt" sd)) = Ok f ->
  parse_time (default JNull (Py.lookup "StartedAt" sd)) = Ok s ->
  parse_time (default JNull (Py.lookup "Created" d)) = Ok c ->
  exists r : option instant,
    container_last_event_ts (JDict d) = Ok r
    /\ (r = None <-> f = None /\ s = None /\ c = None)
    /\ (forall m, r = Some m ->
          Some m ∈ [f; s; c] /\ forall t, Some t ∈ [f; s; c] -> t <= m)
    /\ (forall tf ts, f = Some tf -> s = Some ts -> tf < ts ->
          (forall tc, c = Some tc -> tc <= ts) -> r = Some ts).
Proof.
  intros Hst Hf Hs Hc. exists (latest (omap id [f; s; c])).
  assert (Hrun : container_last_event_ts (JDict d) = Ok (latest (omap id [f; s; c]))).
  { unfold container_last_event_ts, Py.get, Py.get_default.
    rewrite Hst. cbn [from_option id mbind result_bind]. rewrite or_dict.
    cbn [mbind result_bind]. rewrite Hf. cbn [mbind result_bind].
    rewrite Hs. cbn [mbind result_bind]. rewrite Hc. reflexivity. }
  split; [exact Hrun|]. split; [|split].
  - rewrite latest_None. destruct f, s, c; cbn; split; try easy.
    all: intros (? & ? & ?); discriminate.
  - intros m [Hin Hmax]%latest_spec. rewrite candidates_elem in Hin.
    split; [exact Hin|]. intros t Ht. apply Hmax. now apply candidates_elem.
  - intros tf ts -> -> Hlt Hcr.
    destruct c as [tc|]; cbn; [specialize (Hcr tc eq_refl)|]; f_equal; lia.
Qed.

(** *** Inspection *)

Lemma container_last_event_ts_empty : container_last_event_ts (JDict []) = Ok None.
Proof. reflexivity. Qed.

(** C7, as the code has it. For every engine name and container
    identifier whose [inspect] subprocess runs to its end,
    [inspect_container] returns the first element of the decoded array
    when the engine exits with status zero and its output decodes to a
    non-empty array, and the empty mapping when the status is not zero,
    when the output is no valid JSON ([json.JSONDecodeError]), and when it
    decodes to anything but a non-empty array; on the empty mapping the
    loop of [main] records the one container as unknown, marks the run
    unhealthy and goes on. An exception of the subprocess itself, and any
    other exception of [json.loads], is not caught: it leaves
    [inspect_container] as it came. *)
Theorem inspect_container_degrades (runtime cid : string) :
  (forall e, run [runtime; "inspect"; cid] = Raise e ->
     inspect_container runtime cid = Raise e)
  /\ (forall code out err, run [runtime; "inspect"; cid] = Ok (code, out, err) ->
        (code <> 0 -> inspect_container runtime cid = Ok (JDict []))
        /\ (code = 0 -> forall x l, json_loads out = Ok (JList (x :: l)) ->
              inspect_container runtime cid = Ok x)
        /\ (code = 0 -> json_loads out = Raise JSONDecodeError ->
              inspect_container runtime cid = Ok (JDict []))
        /\ (code = 0 -> forall data, json_loads out = Ok data ->
              (forall x l, data <> JList (x :: l)) ->
              inspect_container runtime cid = Ok (JDict []))
        /\ (code = 0 -> forall e, json_loads out = Raise e -> e <> JSONDecodeError ->
              inspect_container runtime cid = Raise e))
  /\ (inspect_container runtime cid = Ok (JDict []) ->
      forall window now jobs unhealthy name,
        check_target runtime window now (jobs, unhealthy) (name, JStr cid) =
        Ok (<[name := "last_seen: unknown"]> jobs, true)).
Proof.
  split; [|split].
  - intros e He. unfold inspect_container. now rewrite He.
  - intros code out err Hrun. unfold inspect_container. rewrite Hrun.
    cbn [mbind result_bind]. repeat split.
    + intros Hc. apply Z.eqb_neq in Hc. now rewrite Hc.
    + intros -> x l Hd. cbn [Z.eqb negb]. now rewrite Hd.
    + intros -> Hd. cbn [Z.eqb negb]. now rewrite Hd.
    + intros -> data Hd Hno. cbn [Z.eqb negb]. rewrite Hd.
      cbn [mbind result_bind]. destruct data as [| | | | |l|]; try reflexivity.
      destruct l as [|x l]; [reflexivity | now specialize (Hno x l)].
    + intros -> e Hd Hne. cbn [Z.eqb negb]. rewrite Hd.
      cbn [mbind result_bind]. destruct e; try reflexivity. congruence.
  - intros Hi *. unfold check_target. cbn [mbind result_bind].
    rewrite Hi. reflexivity.
Qed.

(** *** The user *)

Lemma str_or_yields (name value rest : string) :
  MonitorSpec.yields name value -> Py.str_or (environ !! name) rest = value.
Proof. intros [-> Hne]. destruct value; [congruence | reflexivity]. Qed.

Lemma str_or_silent (name rest : string) :
  MonitorSpec.silent name -> Py.str_or (environ !! name) rest = rest.
Proof.
  intros Hs. destruct (environ !! name) as [[|c v]|] eqn:E; try reflexivity.
  exfalso. apply (Hs (String c v)). split; [exact E | discriminate].
Qed.

(** C8. The user that is reported is what the first of the environment
    variables [ANSIBLE_USER], [USER] and [USERNAME], taken in that order,
    yields (a variable that is unset, or set to the empty string, yields
    nothing), and the literal [unknown] when none of them yields
    anything. *)
Theorem get_ansible_user_order :
  (forall v, MonitorSpec.yields "ANSIBLE_USER" v -> get_ansible_user = v)
  /\ (MonitorSpec.silent "ANSIBLE_USER" ->
      forall v, MonitorSpec.yields "USER" v -> get_ansible_user = v)
  /\ (MonitorSpec.silent "ANSIBLE_USER" -> MonitorSpec.silent "USER" ->
      forall v, MonitorSpec.yields "USERNAME" v -> get_ansible_user = v)
  /\ (MonitorSpec.silent "ANSIBLE_USER" -> MonitorSpec.silent "USER" ->
      MonitorSpec.silent "USERNAME" -> get_ansible_user = "unknown").
Proof.
  unfold get_ansible_user. repeat split.
  - intros v Hv. now apply str_or_yields.
  - intros H1 v Hv. rewrite (str_or_silent _ _ H1). now apply str_or_yields.
  - intros H1 H2 v Hv.
    rewrite (str_or_silent _ _ H1), (str_or_silent _ _ H2).
    now apply str_or_yields.
  - intros H1 H2 H3.
    now rewrite (str_or_silent _ _ H1), (str_or_silent _ _ H2), (str_or_silent _ _ H3).
Qed.

(** *** Classification *)

(** C4. For every container whose inspection resolves to a timestamp
    [t], the window is inclusive at its boundary: when [now - t] is at
    most the window, and so when [t] is exactly [now - window], the job
    is recorded as [executed_at] with the ISO-8601 rendering of [t] and
    the health flag is left as it was; when [now - t] exceeds the
    window the job is recorded as [last_seen] with that rendering and
    the run is marked unhealthy. *)
Theorem check_target_window
    (runtime : string) (window : timedelta) (now : instant)
    (jobs : gmap string string) (unhealthy : bool)
    (name cid : string) (info : json) (t : instant) :
  inspect_container runtime cid = Ok info ->
  container_last_event_ts info = Ok (Some t) ->
  (now - t <= window ->
   check_target runtime window now (jobs, unhealthy) (name, JStr cid) =
   Ok (<[name := "executed_at: " ++ render t]> jobs, unhealthy))
  /\ (t = now - window ->
      check_target runtime window now (jobs, unhealthy) (name, JStr cid) =
      Ok (<[name := "executed_at: " ++ render t]> jobs, unhealthy))
  /\ (window < now - t ->
      check_target runtime window now (jobs, unhealthy) (name, JStr cid) =
      Ok (<[name := "last_seen: " ++ render t]> jobs, true)).
Proof.
  intros Hi Ht.
  assert (E : check_target runtime window now (jobs, unhealthy) (name, JStr cid) =
              if now - t <=? window
              then Ok (<[name := "executed_at: " ++ render t]> jobs, unhealthy)
              else Ok (<[name := "last_seen: " ++ render t]> jobs, true)).
  { unfold check_target. cbn [mbind result_bind]. rewrite Hi.
    cbn [mbind result_bind]. rewrite Ht. reflexivity. }
  rewrite E. repeat split.
  - intros Hle. apply Z.leb_le in Hle. now rewrite Hle.
  - intros ->. replace (now - (now - window) <=? window) with true; [reflexivity|].
    symmetry. apply Z.leb_le. lia.
  - intros Hgt. apply Z.leb_gt in Hgt. now rewrite Hgt.
Qed.

(** *** The name filter *)

Lemma or_not_empty_list (a b : json) : Py.or (Py.or a b) (JStr "") <> JList [].
Proof.
  unfold Py.or. destruct (Py.truthy a) eqn:Ea.
  - rewrite Ea. intros ->. discriminate.
  - destruct (Py.truthy b) eqn:Eb; [|discriminate]. intros ->. discriminate.
Qed.

Lemma startswith_empty (p : string) : p <> "" -> startswith "" p = false.
Proof. now destruct p. Qed.

(** C3, as the code has it. A listed record that is a mapping is
    skipped when its normalised name does not start with the prefix, and
    so, for a prefix that is not empty, whenever it has no usable name.
    A record whose normalised name starts with the prefix is passed on,
    with [identifier d] as its identifier, whether [ID] or [Id] is there
    or not: without them the identifier passed on is the empty
    string. *)
Theorem select_target_by_name
    (prefix : string) (target : list (string * json)) (d : list (string * json)) :
  exists out : list (string * json),
    select_target prefix target (JDict d) = Ok out
    /\ (prefix <> "" -> ~ MonitorSpec.has_name d -> out = target)
    /\ (forall n, MonitorSpec.display_name d = Some n ->
          startswith n prefix = false -> out = target)
    /\ (forall n, MonitorSpec.display_name d = Some n ->
          startswith n prefix = true ->
          out = (target ++ [(n, MonitorSpec.identifier d)])%list)
    /\ (Py.lookup "ID" d = None -> Py.lookup "Id" d = None ->
        MonitorSpec.identifier d = JStr "").
Proof.
  assert (Hrun : select_target prefix target (JDict d) =
            Ok match MonitorSpec.display_name d with
               | Some n => if startswith n prefix
                           then (target ++ [(n, MonitorSpec.identifier d)])%list
                           else target
               | None => target
               end).
  { unfold select_target, MonitorSpec.display_name, MonitorSpec.identifier,
      Py.get, Py.get_default.
    cbn [mbind result_bind].
    pose proof (or_not_empty_list (default JNull (Py.lookup "Names" d))
                  (default JNull (Py.lookup "Name" d))) as Hne.
    destruct (Py.or (Py.or _ _) (JStr "")) as [| | | |n|l|]; try reflexivity.
    - now destruct (startswith n prefix).
    - destruct l as [|x l]; [congruence|].
      destruct x as [| | | |n| |]; try reflexivity.
      now destruct (startswith n prefix). }
  eexists. split; [exact Hrun|]. repeat split.
  - intros Hp Hno. destruct (MonitorSpec.display_name d) as [n|] eqn:E; [|reflexivity].
    destruct n as [|c n].
    + now rewrite startswith_empty.
    + exfalso. apply Hno. exists (String c n). split; [exact E | discriminate].
  - intros n -> ->. reflexivity.
  - intros n -> ->. reflexivity.
  - intros H1 H2. unfold MonitorSpec.identifier. now rewrite H1, H2.
Qed.

(** *** The report *)

Lemma first_numeric_total (tokens : list string) :
  Forall (fun t => t <> "") tokens -> exists v, first_numeric tokens = Ok v.
Proof.
  induction 1 as [|t l Ht _ IH]; [now eexists|].
  destruct t as [|c t]; [congruence|]. cbn.
  destruct (isdigit c); [now eexists | exact IH].
Qed.

(** One turn of the second loop sets the flag exactly for a container
    that is unknown or stale, and never clears it. *)
Lemma check_target_flag (rt : string) (w : timedelta) (now : instant)
    (jobs jobs' : gmap string string) (u u' : bool) (t : string * json) :
  check_target rt w now (jobs, u) t = Ok (jobs', u') ->
  (u' = true <-> u = true \/ MonitorSpec.stale_or_unknown rt w now t).
Proof.
  destruct t as [name cid]. unfold check_target, MonitorSpec.stale_or_unknown.
  destruct cid as [| | | |cid| |]; try discriminate. cbn [mbind result_bind snd].
  destruct (inspect_container rt cid) as [info|] eqn:Hi; [|discriminate].
  cbn [mbind result_bind].
  destruct (container_last_event_ts info) as [[ts|]|] eqn:Hts;
    cbn [mbind result_bind]; [| |discriminate].
  - destruct (now - ts <=? w) eqn:Hw; intros ?; simplify_eq.
    + apply Z.leb_le in Hw. split; [now left|].
      intros [Hu|(cid' & info' & [= <-] & Hi' & Hcase)]; [exact Hu|].
      rewrite Hi in Hi'. injection Hi' as <-. rewrite Hts in Hcase.
      destruct Hcase as [?|(ts' & [= <-] & ?)]; [discriminate | lia].
    + apply Z.leb_gt in Hw. split; [|reflexivity]. intros _. right.
      exists cid, info. repeat split; [exact Hi|]. right. exists ts. now split.
  - intros ?; simplify_eq. split; [|reflexivity]. intros _. right.
    exists cid, info. repeat split; [exact Hi|]. now left.
Qed.

Lemma check_targets_flag (rt : string) (w : timedelta) (now : instant)
    (target : list (string * json))
    (jobs jobs' : gmap string string) (u u' : bool) :
  Py.for_each (check_target rt w now) target (jobs, u) = Ok (jobs', u') ->
  (u' = true <-> u = true \/ Exists (MonitorSpec.stale_or_unknown rt w now) target).
Proof.
  revert jobs u. induction target as [|t target IH]; intros jobs u;
    cbn [Py.for_each].
  - intros ?; simplify_eq. rewrite Exists_nil. tauto.
  - destruct (check_target rt w now (jobs, u) t) as [[jobs1 u1]|] eqn:Hstep;
      cbn [mbind result_bind]; [|discriminate].
    intros Hrest. apply IH in Hrest. apply check_target_flag in Hstep.
    rewrite Exists_cons. tauto.
Qed.

(** C5. In a run whose engine is found and whose listing succeeds, with
    [target] the containers that match the prefix filter: when there is
    none, the report that is emitted has status [healthy] and an empty job
    mapping, and it is emitted whenever the version query raises nothing;
    and whenever a report is emitted, its status is [unhealthy] if and
    only if at least one matched container was classified stale or
    unknown, and [healthy] otherwise. *)
Theorem main_status (a : args) (rt : string) (target : list (string * json)) :
  select_runtime a = Ok rt ->
  MonitorSpec.matched a = Ok target ->
  (target = [] ->
   (forall p, main a = Ok p -> message_status p = "healthy" /\ message_jobs p = ∅)
   /\ (forall v, get_ansible_version = Ok v ->
         exists p, main a = Ok p /\ message_status p = "healthy" /\ message_jobs p = ∅))
  /\ (forall p, main a = Ok p ->
        let stale := Exists (MonitorSpec.stale_or_unknown rt (window a) now_utc) target in
        (message_status p = "unhealthy" <-> stale)
        /\ (message_status p = "healthy" <-> ~ stale)).
Proof.
  intros Hrt Hm. unfold MonitorSpec.matched in Hm. unfold main.
  rewrite Hrt in *. cbn [mbind result_bind] in *.
  destruct (list_containers rt) as [containers|]; [|discriminate].
  cbn [mbind result_bind] in *. rewrite Hm. cbn [mbind result_bind]. split.
  - intros ->. cbn [check_targets Py.for_each mbind result_bind negb]. split.
    + intros p. destruct get_ansible_version as [v|]; cbn [mbind result_bind];
        [|discriminate].
      intros [= <-]. now split.
    + intros v ->. cbn [mbind result_bind]. eexists. split; [reflexivity|]. now split.
  - intros p.
    destruct (check_targets rt (window a) now_utc target) as [[jobs u]|] eqn:Hloop;
      [|discriminate].
    cbn [mbind result_bind].
    destruct get_ansible_version as [v|]; cbn [mbind result_bind]; [|discriminate].
    intros [= <-]. cbn [message_status].
    apply check_targets_flag in Hloop.
    assert (Hu : u = true <->
                 Exists (MonitorSpec.stale_or_unknown rt (window a) now_utc) target)
      by (rewrite Hloop; intuition discriminate).
    clear Hloop. destruct u; cbn [negb]; destruct Hu as [Hu1 Hu2].
    + repeat split; try discriminate; auto.
      intros Hno. exfalso. auto.
    + repeat split; try discriminate; auto.
      * intros Hs. apply Hu2 in Hs. discriminate.
      * intros _ Hs. apply Hu2 in Hs. discriminate.
Qed.

End Facts.

End MonitorFacts.

(** ** The configuration checker *)

Module CheckerFacts.
Import parse_sshd_config CheckerSpec.

Lemma status_initial : status initial = Some "non-compliant".
Proof. reflexivity. Qed.

Lemma message_initial (k : string) : message initial !! k = None.
Proof. apply lookup_empty. Qed.

(** One line: the accumulator stays clear of the key [status], the report
    loses no key, the status turns to [compliant] on a line that differs
    and is left alone by any other, and a line that agrees puts its value
    in the report. *)
Lemma scan_line_spec (key : string) (expected : json) (w w1 : world) (line : string) :
  key <> "status" ->
  message w !! "status" = None ->
  scan_line key expected w line = Ok w1 ->
  message w1 !! "status" = None
  /\ (forall k, is_Some (end_result w !! k) -> is_Some (end_result w1 !! k))
  /\ (differs key expected line /\ status w1 = Some "compliant"
      \/ ~ differs key expected line /\ status w1 = status w)
  /\ (forall tok, observes key line tok -> Py.eq_str expected tok = true ->
        end_result w1 !! key = Some tok).
Proof.
  intros Hkey Hinv. unfold scan_line, differs, observes, status.
  destruct (matches key line) eqn:Hm.
  - destruct (Py.last (PyStr.split line)) as [tok|] eqn:Hlast; [|discriminate].
    cbn [mbind result_bind].
    destruct (Py.eq_str expected tok) eqn:Heq; intros [= <-]; cbn.
    + repeat split.
      * now rewrite lookup_insert_ne.
      * intros k [x Hx]. destruct (<[key:=tok]> (message w) !! k) as [y|] eqn:E.
        -- exists y. now apply lookup_union_Some_l.
        -- exists x. now rewrite lookup_union_r.
      * right. split.
        -- intros (tok' & [_ [= <-]] & Hne). congruence.
        -- rewrite lookup_union_r; [reflexivity|]. now rewrite lookup_insert_ne.
      * intros tok' [_ [= <-]] _. apply lookup_union_Some_l, lookup_insert_eq.
    + repeat split.
      * now rewrite lookup_insert_ne.
      * intros k Hk. destruct (decide (k = "status")) as [->|Hne].
        -- rewrite lookup_insert_eq. now eexists.
        -- now rewrite lookup_insert_ne.
      * left. split; [|apply lookup_insert_eq]. exists tok. now repeat split.
      * intros tok' [_ [= <-]] Heq'. congruence.
  - intros [= <-]. repeat split; auto.
    + right. split; [|reflexivity]. intros (tok & [Hm' _] & _). congruence.
    + intros tok [Hm' _]. congruence.
Qed.

(** All the lines, for one directive. *)
Lemma scan_key_spec (key : string) (expected : json) (all_lines : list string)
    (w w1 : world) :
  key <> "status" ->
  message w !! "status" = None ->
  scan_key all_lines w (key, expected) = Ok w1 ->
  message w1 !! "status" = None
  /\ (forall k, is_Some (end_result w !! k) -> is_Some (end_result w1 !! k))
  /\ ((exists line, line ∈ all_lines /\ differs key expected line)
      /\ status w1 = Some "compliant"
      \/ ~ (exists line, line ∈ all_lines /\ differs key expected line)
         /\ status w1 = status w)
  /\ (forall line, line ∈ all_lines -> agrees key expected line ->
        is_Some (end_result w1 !! key)).
Proof.
  intros Hkey. unfold scan_key. cbn [fst snd].
  revert w. induction all_lines as [|line l IH]; intros w Hinv; cbn [Py.for_each].
  - intros [= <-]. repeat split; auto.
    + right. split; [|reflexivity]. intros (line & Hin & _). now apply elem_of_nil in Hin.
    + intros line Hin. now apply elem_of_nil in Hin.
  - destruct (scan_line key expected w line) as [w0|] eqn:Hstep;
      cbn [mbind result_bind]; [|discriminate].
    intros Hrest.
    destruct (scan_line_spec _ _ _ _ _ Hkey Hinv Hstep) as (Hinv0 & Hmono0 & Hst0 & Hrec0).
    destruct (IH w0 Hinv0 Hrest) as (Hinv1 & Hmono1 & Hst1 & Hrec1).
    repeat split; auto.
    + destruct Hst1 as [[(l1 & Hin & Hd) Hs]|[Hno Hs]].
      * left. split; [|exact Hs]. exists l1. split; [now apply list_elem_of_further | exact Hd].
      * destruct Hst0 as [[Hd Hs0]|[Hnd Hs0]].
        -- left. split; [|congruence]. exists line. split; [apply list_elem_of_here | exact Hd].
        -- right. split; [|congruence].
           intros (l1 & [->|Hin]%elem_of_cons & Hd); [contradiction|].
           apply Hno. now exists l1.
    + intros l1 [->|Hin]%elem_of_cons Hag.
      * apply Hmono1. destruct Hag as (tok & Hobs & Heq).
        exists tok. now apply Hrec0.
      * now apply (Hrec1 l1).
Qed.

(** All the directives. *)
Lemma scan_all_spec (all_lines : list string) (d : list (string * json)) (w w1 : world) :
  "status" ∉ d.*1 ->
  message w !! "status" = None ->
  Py.for_each (scan_key all_lines) d w = Ok w1 ->
  message w1 !! "status" = None
  /\ (forall k, is_Some (end_result w !! k) -> is_Some (end_result w1 !! k))
  /\ (some_differs all_lines d /\ status w1 = Some "compliant"
      \/ ~ some_differs all_lines d /\ status w1 = status w)
  /\ (forall key expected line, (key, expected) ∈ d -> line ∈ all_lines ->
        agrees key expected line -> is_Some (end_result w1 !! key)).
Proof.
  unfold some_differs.
  revert w. induction d as [|[key expected] d IH]; intros w Hkeys Hinv; cbn [Py.for_each].
  - intros [= <-]. repeat split; auto.
    + right. split; [|reflexivity]. intros (k & e & l & Hin & _). now apply elem_of_nil in Hin.
    + intros k e l Hin. now apply elem_of_nil in Hin.
  - rewrite fmap_cons in Hkeys. cbn [fst] in Hkeys.
    apply not_elem_of_cons in Hkeys as [Hkey Hkeys]. 
    destruct (scan_key all_lines w (key, expected)) as [w0|] eqn:Hstep;
      cbn [mbind result_bind]; [|discriminate].
    intros Hrest.
    assert (Hkey' : key <> "status") by congruence.
    destruct (scan_key_spec _ _ _ _ _ Hkey' Hinv Hstep) as (Hinv0 & Hmono0 & Hst0 & Hrec0).
    destruct (IH w0 Hkeys Hinv0 Hrest) as (Hinv1 & Hmono1 & Hst1 & Hrec1).
    repeat split; auto.
    + destruct Hst1 as [[(k & e & l & Hin & Hl & Hd) Hs]|[Hno Hs]].
      * left. split; [|exact Hs]. exists k, e, l.
        split; [now apply list_elem_of_further | now split].
      * destruct Hst0 as [[(l & Hl & Hd) Hs0]|[Hnd Hs0]].
        -- left. split; [|congruence]. exists key, expected, l.
           split; [apply list_elem_of_here | now split].
        -- right. split; [|congruence].
           intros (k & e & l & [[= -> ->]|Hin]%elem_of_cons & Hl & Hd).
           ++ apply Hnd. now exists l.
           ++ apply Hno. now exists k, e, l.
    + intros k e l [[= -> ->]|Hin]%elem_of_cons Hl Hag.
      * apply Hmono1. now apply (Hrec0 l).
      * now apply (Hrec1 k e l).
Qed.

(** C2, as the code has it. In a run that completes on defaults among
    which no directive is named [status], the status starts as
    [non-compliant] and ends as [compliant] exactly when, for at least one
    expected directive, the observed value of a matching non-comment line
    differs from the expected default; it ends as [non-compliant]
    otherwise. A directive whose observed value on some line equals the
    expected default is in the report. *)
Theorem get_ssh_config_log_status
    (all_lines : list string) (d : list (string * json)) (w' : world) :
  "status" ∉ d.*1 ->
  get_ssh_config_log all_lines (JDict d) initial = Ok w' ->
  status initial = Some "non-compliant"
  /\ (status w' = Some "compliant" <-> some_differs all_lines d)
  /\ (status w' = Some "non-compliant" <-> ~ some_differs all_lines d)
  /\ (forall key expected line, (key, expected) ∈ d -> line ∈ all_lines ->
        agrees key expected line -> is_Some (end_result w' !! key)).
Proof.
  intros Hkeys. unfold get_ssh_config_log.
  destruct (Py.for_each (scan_key all_lines) d initial) as [w1|] eqn:Hrun;
    cbn [mbind result_bind]; [|discriminate].
  intros [= <-].
  destruct (scan_all_spec _ _ _ _ Hkeys (message_initial _) Hrun)
    as (_ & _ & Hst & Hrec).
  change (status (write_to_json w1)) with (status w1).
  change (end_result (write_to_json w1)) with (end_result w1).
  rewrite status_initial in Hst.
  split; [reflexivity|]. repeat split; auto.
  - destruct Hst as [[Hd _]|[_ Hs]]; [auto | congruence].
  - destruct Hst as [[_ Hs]|[Hno _]]; [auto | contradiction].
  - destruct Hst as [[Hd Hs]|[Hno _]]; [congruence | auto].
  - destruct Hst as [[Hd _]|[_ Hs]]; [contradiction | auto].
Qed.

(** *** Completion *)







(** *** Several lines for one directive *)

(** Every match overwrites the value the accumulator holds for the
    directive. *)
Lemma scan_line_overwrites (key : string) (expected : json) (w w1 : world)
    (line tok : string) :
  observes key line tok ->
  scan_line key expected w line = Ok w1 ->
  message w1 !! key = Some tok.
Proof.
  intros [Hm Hlast]. unfold scan_line. rewrite Hm, Hlast. cbn [mbind result_bind].
  destruct (Py.eq_str expected tok); intros [= <-]; cbn; apply lookup_insert_eq.
Qed.

(** C10, on the code. With [PermitRootLogin no] expected and the two
    lines [PermitRootLogin no] and [PermitRootLogin yes], the run
    completes; the second line overwrites the accumulator, which holds
    [yes], and turns the status to [compliant]; the report, in memory and
    in the file, still gives [no], the value of the first matching line,
    while the last token of the last matching line is [yes]. *)
Theorem last_match_not_reported :
  exists w',
    get_ssh_config_log Example.sshd_config_twice
      (JDict Example.sshd_defaults_root) initial = Ok w'
    /\ observes "PermitRootLogin" ("PermitRootLogin yes" ++ Example.nl) "yes"
    /\ message w' !! "PermitRootLogin" = Some "yes"
    /\ end_result w' !! "PermitRootLogin" = Some "no"
    /\ head (json_log w') = Some (end_result w')
    /\ status w' = Some "compliant".
Proof.
  eexists. split; [reflexivity|]. repeat split.
Qed.

(** C2, the claim as it stands, fails: with the one directive [status]
    expected to be [x] and the one line [status x], the observed value
    equals the expected default and no line differs, yet the run changes
    the status, from [non-compliant] to [x]. *)
Lemma status_directive_changes_status :
  exists w',
    get_ssh_config_log Example.status_config
      (JDict Example.status_defaults) initial = Ok w'
    /\ agrees "status" (JStr "x") ("status x" ++ Example.nl)
    /\ ~ some_differs Example.status_config Example.status_defaults
    /\ status initial = Some "non-compliant"
    /\ status w' = Some "x".
Proof.
  eexists. split; [reflexivity|]. split; [|split; [|split; reflexivity]].
  - exists "x". repeat split.
  - intros (key & expected & line & Hin & Hl & tok & [_ Hlast] & Hne).
    apply list_elem_of_singleton in Hin. apply list_elem_of_singleton in Hl.
    injection Hin as -> ->. subst line.
    vm_compute in Hlast. injection Hlast as <-. discriminate Hne.
Qed.

End CheckerFacts.

(** ** More on the job monitor *)

Module MonitorMore.
Import PyStr PyStrFacts EDA_job_monitor MonitorFacts.

#[local] Arguments String.append !_ _ / : simpl nomatch.

(** What is left of [lstrip] starts with a character that is no white
    space, so a second [lstrip] changes nothing. *)
Lemma lstrip_idem (s : string) : lstrip (lstrip s) = lstrip s.
Proof.
  induction s as [|c s IH]; [reflexivity|].
  cbn [lstrip]. destruct (isspace c) eqn:E; [exact IH|].
  cbn [lstrip]. now rewrite E.
Qed.

(** What is left of [rstrip] is empty or ends with a character that is no
    white space. *)
Lemma rstrip_shape (s : string) :
  rstrip s = "" \/ exists a c, rstrip s = a ++ String c "" /\ isspace c = false.
Proof.
  induction s as [|x s IH]; [now left|].
  cbn [rstrip]. destruct IH as [->|(a & c & -> & Hc)].
  - destruct (isspace x) eqn:E; [now left|]. right. now exists "", x.
  - right. exists (String x a), c. split; [|exact Hc].
    destruct a; reflexivity.
Qed.

Lemma strip_idem (s : string) : strip (strip s) = strip s.
Proof.
  unfold strip. destruct (rstrip_shape s) as [->|(a & c & -> & Hc)]; [reflexivity|].
  rewrite (lstrip_app a "" c Hc), (rstrip_visible _ c Hc), (lstrip_app _ "" c Hc).
  now rewrite lstrip_idem.
Qed.

Lemma startswith_app (a b : string) : startswith (a ++ b) a = true.
Proof.
  induction a as [|c a IH]; cbn; [apply startswith_nil|].
  now rewrite Ascii.eqb_refl.
Qed.

Section More.
Context `{Host}.

(** *** [parse_time] *)

(** X1. [parse_time] raises nothing on a string and on a value that is
    false as a condition ([None], the empty string, zero, an empty list or
    mapping): it answers [None] for the latter. On every other value, one
    that is true as a condition and no string, it raises [AttributeError],
    the call of [strip] being outside the [try]. *)
Theorem parse_time_raises_on_non_strings :
  (forall s, exists r, parse_time (JStr s) = Ok r)
  /\ (forall v, Py.truthy v = false -> parse_time v = Ok None)
  /\ (forall v, Py.truthy v = true -> (forall s, v <> JStr s) ->
        parse_time v = Raise AttributeError).
Proof.
  repeat split.
  - intros s. unfold parse_time. destruct (Py.truthy (JStr s)); cbn [negb]; [|now eexists].
    destruct (endswith (strip s) "Z"); now eexists.
  - intros v Hv. unfold parse_time. now rewrite Hv.
  - intros v Hv Hns. unfold parse_time. rewrite Hv. cbn [negb].
    destruct v; try reflexivity. now specialize (Hns s).
Qed.

(** X2. White space around a timestamp is ignored: a string and the same
    string stripped are parsed alike, as long as something is left of
    it. *)
Theorem parse_time_strip (s : string) :
  strip s <> "" -> parse_time (JStr s) = parse_time (JStr (strip s)).
Proof.
  intros Hs. unfold parse_time.
  destruct s as [|c s]; [now contradiction Hs|].
  destruct (strip (String c s)) as [|c' s'] eqn:E; [congruence|].
  cbn [Py.truthy negb]. rewrite <- E, strip_idem. reflexivity.
Qed.

(** X3. A trailing [Z] wins over any offset the text carries: when the
    library reads [d] from what stands before the [Z] (and before the first
    dot), the instant is the wall clock of [d] taken as UTC, whatever zone
    [d] has. *)
Theorem parse_time_zulu_overrides_offset (a : string) (d : datetime) :
  fromisoformat (before "." (lstrip a)) = Some d ->
  parse_time (JStr (a ++ "Z")) = Ok (Some (wall d)).
Proof.
  intros Hd. rewrite parse_time_zulu, Hd. reflexivity.
Qed.

(** *** [container_last_event_ts] *)

(** X4. Without a usable [State] (the key missing, or its value [None] or
    an empty mapping) only [Created] is looked at: the resolved timestamp is
    what [parse_time] reads there, and nothing when [Created] is missing as
    well. *)
Theorem container_last_event_ts_created_only (d : list (string * json)) (st : json) :
  default (JDict []) (Py.lookup "State" d) = st ->
  Py.truthy st = false ->
  container_last_event_ts (JDict d)
  = parse_time (default JNull (Py.lookup "Created" d))
  /\ (Py.lookup "Created" d = None -> container_last_event_ts (JDict d) = Ok None).
Proof.
  intros Hst Hf.
  assert (E : container_last_event_ts (JDict d)
              = parse_time (default JNull (Py.lookup "Created" d))).
  { unfold container_last_event_ts, Py.get, Py.get_default.
    cbn [mbind result_bind]. rewrite Hst. unfold Py.or. rewrite Hf.
    cbn [Py.lookup from_option id mbind result_bind parse_time Py.truthy negb].
    destruct (parse_time (default JNull (Py.lookup "Created" d))) as [[t|]|e];
      reflexivity. }
  split; [exact E|]. intros Hc. rewrite E, Hc. reflexivity.
Qed.

(** X5. A detail that is no mapping, and a [State] that is true as a
    condition and no mapping (a string, a number, a list), make
    [container_last_event_ts] raise [AttributeError]: nothing catches the
    failing [get]. *)
Theorem container_last_event_ts_raises :
  (forall info, (forall d, info <> JDict d) ->
     container_last_event_ts info = Raise AttributeError)
  /\ (forall d st, Py.lookup "State" d = Some st -> Py.truthy st = true ->
        (forall sd, st <> JDict sd) ->
        container_last_event_ts (JDict d) = Raise AttributeError).
Proof.
  split.
  - intros info Hno. destruct info; try reflexivity. now specialize (Hno d).
  - intros d st Hst Ht Hno. unfold container_last_event_ts, Py.get, Py.get_default.
    rewrite Hst. cbn [from_option id mbind result_bind]. unfold Py.or. rewrite Ht.
    destruct st; try reflexivity. now specialize (Hno d0).
Qed.

(** *** The version and the user *)

Lemma first_numeric_digit (tokens : list string) (t : string) :
  first_numeric tokens = Ok (Some t) ->
  exists c r, t = String c r /\ isdigit c = true.
Proof.
  induction tokens as [|x l IH]; [discriminate|].
  destruct x as [|c r]; [discriminate|]. cbn.
  destruct (isdigit c) eqn:E; [|exact IH].
  intros [= <-]. now exists c, r.
Qed.

(** X6. [get_ansible_version] raises nothing of its own: neither
    [splitlines()[0]] nor [token[0]] can fail. When [ansible] is not on the
    search path its answer is the variable [ANSIBLE_VERSION] of the
    environment. When it is, an exception of the version subprocess leaves
    the function as it came, and after a subprocess that ran to its end
    the answer is that variable or a token that begins with a digit. *)
Theorem get_ansible_version_cases :
  (which "ansible" = None \/ which "ansible" = Some "" ->
   get_ansible_version = Ok (environ !! "ANSIBLE_VERSION"))
  /\ (forall c p e, which "ansible" = Some (String c p) ->
        run [String c p; "--version"] = Raise e ->
        get_ansible_version = Raise e)
  /\ (forall c p r, which "ansible" = Some (String c p) ->
        run [String c p; "--version"] = Ok r ->
        exists v, get_ansible_version = Ok v
          /\ (v = environ !! "ANSIBLE_VERSION"
              \/ exists c' t, v = Some (String c' t) /\ isdigit c' = true)).
Proof.
  unfold get_ansible_version. split; [|split].
  - intros [->| ->]; reflexivity.
  - intros c p e -> ->. reflexivity.
  - intros c p [[code out] err] -> ->. cbn [mbind result_bind].
    destruct ((code =? 0) && negb (String.eqb out "")) eqn:E;
      [|cbn; eexists; split; [reflexivity | now left]].
    apply andb_prop in E as [_ Hout]. apply negb_true_iff, String.eqb_neq in Hout.
    pose proof (splitlines_nonempty out Hout) as Hl.
    destruct (splitlines out) as [|first_line l]; [congruence|].
    cbn [Py.first mbind result_bind].
    destruct (first_numeric_total _ (split_aux_nonempty
                (replace_char "]" " " (replace_char "[" " " first_line)) ""))
      as [v Hv].
    unfold split. rewrite Hv. destruct v as [t|]; cbn.
    + eexists; split; [reflexivity|]. right.
      destruct (first_numeric_digit _ _ Hv) as (c' & r & -> & Hc). now exists c', r.
    + eexists; split; [reflexivity | now left].
Qed.

Lemma str_or_nonempty (a : option string) (b : string) : b <> "" -> Py.str_or a b <> "".
Proof. intros Hb. destruct a as [[|c s]|]; cbn; congruence. Qed.

(** X7. The user that is reported is never the empty string. *)
Theorem get_ansible_user_nonempty : get_ansible_user <> "".
Proof.
  unfold get_ansible_user. repeat apply str_or_nonempty. discriminate.
Qed.

(** *** The listing *)

Lemma decode_line_step (acc : list json) (line : string) :
  ~ MonitorSpec.breaks line ->
  decode_line acc line = Ok (acc ++ omap MonitorSpec.decodes [line])%list.
Proof.
  intros Hno. unfold decode_line, MonitorSpec.decodes, MonitorSpec.breaks in *.
  cbn [omap list_omap]. destruct (strip line) as [|c r].
  - now rewrite app_nil_r.
  - destruct (json_loads (String c r)) as [v|e] eqn:E; cbn [mbind result_bind]; [reflexivity|].
    destruct e; try (exfalso; apply Hno; split; [discriminate|]; eexists;
                     split; [reflexivity | discriminate]).
    cbn. now rewrite app_nil_r.
Qed.

Lemma decode_line_exception (acc : list json) (line : string) (e : exn) :
  decode_line acc line = Raise e -> e <> JSONDecodeError /\ MonitorSpec.breaks line.
Proof.
  unfold decode_line, MonitorSpec.breaks. destruct (strip line) as [|c r]; [discriminate|].
  destruct (json_loads (String c r)) as [v|e'] eqn:E; cbn [mbind result_bind];
    [discriminate|].
  destruct e'; cbn; try discriminate; intros [= <-];
    (split; [discriminate|]; split; [discriminate|]; eexists;
     split; [reflexivity | discriminate]).
Qed.

Lemma decode_loop (lines : list string) (acc : list json) :
  Forall (fun line => ~ MonitorSpec.breaks line) lines ->
  Py.for_each decode_line lines acc = Ok (acc ++ omap MonitorSpec.decodes lines)%list.
Proof.
  intros Hall. revert acc. induction Hall as [|line l Hline _ IH]; intros acc;
    cbn [Py.for_each].
  - cbn. now rewrite app_nil_r.
  - rewrite (decode_line_step acc line Hline). cbn [mbind result_bind].
    rewrite IH, <- app_assoc. f_equal. cbn [omap list_omap].
    now destruct (MonitorSpec.decodes line).
Qed.

Lemma decode_loop_breaks (lines : list string) (acc : list json) :
  Exists MonitorSpec.breaks lines ->
  exists e, e <> JSONDecodeError /\ Py.for_each decode_line lines acc = Raise e.
Proof.
  revert acc. induction lines as [|line l IH]; intros acc Hex;
    [now apply Exists_nil in Hex|].
  cbn [Py.for_each]. destruct (decode_line acc line) as [acc'|e] eqn:Hstep;
    cbn [mbind result_bind].
  - apply IH. apply Exists_cons in Hex as [Hb|Hl]; [|exact Hl].
    exfalso. unfold decode_line in Hstep. destruct Hb as [Hne (e & He & Hnot)].
    destruct (strip line) as [|c r]; [congruence|]. rewrite He in Hstep.
    destruct e; try discriminate. congruence.
  - exists e. split; [|reflexivity]. now apply (decode_line_exception acc line).
Qed.

(** X8. [list_containers] passes on an exception of the listing
    subprocess. After a subprocess that ran to its end it leaves with
    exit status 3 when the status is not zero; at status zero it returns,
    in the order of the lines and one for each, the values that the lines
    of the output decode to once stripped, a blank line and a line that is
    no JSON giving nothing, unless [json.loads] raises on some line
    something else than [json.JSONDecodeError], which is not caught. *)
Theorem list_containers_records (runtime : string) :
  (forall e, run [runtime; "ps"; "-a"; "--format"; "{{json .}}"] = Raise e ->
     list_containers runtime = Raise e)
  /\ (forall code out err,
        run [runtime; "ps"; "-a"; "--format"; "{{json .}}"] = Ok (code, out, err) ->
        (code <> 0 -> list_containers runtime = Raise (SystemExit 3))
        /\ (code = 0 ->
            Forall (fun line => ~ MonitorSpec.breaks line) (splitlines out) ->
            list_containers runtime = Ok (omap MonitorSpec.decodes (splitlines out)))
        /\ (code = 0 -> Exists MonitorSpec.breaks (splitlines out) ->
            exists e, e <> JSONDecodeError /\ list_containers runtime = Raise e)).
Proof.
  unfold list_containers. split.
  - intros e ->. reflexivity.
  - intros code out err ->. cbn [mbind result_bind]. repeat split.
    + intros Hc. apply Z.eqb_neq in Hc. now rewrite Hc.
    + intros -> Hall. cbn [Z.eqb negb]. now rewrite (decode_loop _ [] Hall).
    + intros -> Hex. cbn [Z.eqb negb]. now apply decode_loop_breaks.
Qed.

(** *** The name filter, as a loop *)

Lemma or_truthy_or_empty (a b : json) :
  Py.or (Py.or a b) (JStr "") = JStr "" \/ Py.truthy (Py.or (Py.or a b) (JStr "")) = true.
Proof.
  unfold Py.or. destruct (Py.truthy a) eqn:Ea.
  - rewrite Ea. now right.
  - destruct (Py.truthy b) eqn:Eb; [now right | now left].
Qed.

(** One turn of the first loop on a mapping: the record is skipped, or
    it is appended under a name that starts with the prefix. *)
Lemma select_target_step (prefix : string) (acc : list (string * json))
    (d : list (string * json)) :
  exists out, select_target prefix acc (JDict d) = Ok out
    /\ (out = acc
        \/ exists n cid, out = (acc ++ [(n, cid)])%list
             /\ startswith n prefix = true
             /\ (cid = JStr "" \/ Py.truthy cid = true)).
Proof.
  unfold select_target, Py.get, Py.get_default. cbn [mbind result_bind].
  pose proof (or_truthy_or_empty (default JNull (Py.lookup "ID" d))
                (default JNull (Py.lookup "Id" d))) as Hid.
  set (cid := Py.or (Py.or (default JNull (Py.lookup "ID" d))
                       (default JNull (Py.lookup "Id" d))) (JStr "")) in *.
  clearbody cid.
  assert (Hstr : forall n,
            exists out,
              (if startswith n prefix then Ok (acc ++ [(n, cid)])%list else Ok acc)
              = Ok out
              /\ (out = acc
                  \/ exists n cid, out = (acc ++ [(n, cid)])%list
                       /\ startswith n prefix = true
                       /\ (cid = JStr "" \/ Py.truthy cid = true))).
  { intros n. destruct (startswith n prefix) eqn:E.
    - eexists. split; [reflexivity|]. right. eauto.
    - eexists. split; [reflexivity|]. now left. }
  destruct (Py.or (Py.or (default JNull (Py.lookup "Names" d))
                     (default JNull (Py.lookup "Name" d))) (JStr ""))
    as [| | | |n|l|]; try (eexists; split; [reflexivity | now left]).
  - apply Hstr.
  - destruct l as [|x l].
    + apply (Hstr "").
    + destruct x as [| | | |n| |]; try (eexists; split; [reflexivity | now left]).
      apply Hstr.
Qed.

Lemma select_target_non_mapping (prefix : string) (acc : list (string * json)) (c : json) :
  (forall d, c <> JDict d) -> select_target prefix acc c = Raise AttributeError.
Proof. intros Hno. destruct c; try reflexivity. now specialize (Hno d). Qed.

Lemma select_loop (prefix : string) (containers : list json)
    (acc t : list (string * json)) :
  Py.for_each (select_target prefix) containers acc = Ok t ->
  exists extra,
    t = (acc ++ extra)%list
    /\ (length extra <= length containers)%nat
    /\ Forall (fun x => startswith x.1 prefix = true
                        /\ (x.2 = JStr "" \/ Py.truthy x.2 = true)) extra.
Proof.
  revert acc. induction containers as [|c l IH]; intros acc; cbn [Py.for_each].
  - intros [= <-]. exists []. rewrite app_nil_r. repeat split; [cbn; lia | constructor].
  - destruct c as [| | | | | |d]; try discriminate.
    destruct (select_target_step prefix acc d) as (out & -> & Hout).
    cbn [mbind result_bind]. intros Hrest.
    destruct (IH _ Hrest) as (extra & -> & Hlen & Hall).
    destruct Hout as [->|(n & cid & -> & Hp & Hcid)].
    + exists extra. repeat split; [cbn; lia | exact Hall].
    + exists ((n, cid) :: extra). rewrite <- app_assoc. repeat split; [cbn; lia|].
      constructor; [now split | exact Hall].
Qed.

(** X9. The first loop of [main] selects at most as many containers as
    were listed; every name it selects starts with the prefix, and every
    identifier it passes on is the empty string or a value that is true as
    a condition, never [None]. *)
Theorem select_targets_sound (prefix : string) (containers : list json)
    (target : list (string * json)) :
  select_targets prefix containers = Ok target ->
  (length target <= length containers)%nat
  /\ forall name cid, (name, cid) ∈ target ->
       startswith name prefix = true /\ (cid = JStr "" \/ Py.truthy cid = true).
Proof.
  intros Hrun. destruct (select_loop _ _ _ _ Hrun) as (extra & -> & Hlen & Hall).
  cbn [app]. split; [exact Hlen|].
  intros name cid Hin. rewrite Forall_forall in Hall. exact (Hall _ Hin).
Qed.

(** X10. The first loop completes when every listed record is a mapping,
    and raises [AttributeError] as soon as one is not (a line of the
    listing that decodes to a number, a string, a list or [null]): the
    run ends there. *)
Theorem select_targets_non_mapping (prefix : string) (containers : list json) :
  (Forall (fun c => exists d, c = JDict d) containers ->
   exists target, select_targets prefix containers = Ok target)
  /\ (Exists (fun c => forall d, c <> JDict d) containers ->
      select_targets prefix containers = Raise AttributeError).
Proof.
  unfold select_targets. generalize (@nil (string * json)) as acc. split.
  - intros Hall. revert acc. induction Hall as [|c l [d ->] _ IH]; intros acc;
      cbn [Py.for_each]; [now eexists|].
    destruct (select_target_step prefix acc d) as (out & -> & _).
    cbn [mbind result_bind]. apply IH.
  - intros Hex. revert acc. induction containers as [|c l IH]; intros acc;
      [now apply Exists_nil in Hex|].
    cbn [Py.for_each]. destruct c as [| | | | | |d]; try reflexivity.
    destruct (select_target_step prefix acc d) as (out & -> & _).
    cbn [mbind result_bind]. apply IH.
    apply Exists_cons in Hex as [Hc|Hl]; [now specialize (Hc d) | exact Hl].
Qed.

(** *** The classification, as a loop *)

(** One turn of the second loop: one entry is written under the name, an
    [executed_at] entry with the flag untouched or a [last_seen] entry
    with the flag set. *)
Lemma check_target_step (rt : string) (w : timedelta) (now : instant)
    (jobs jobs' : gmap string string) (u u' : bool) (name : string) (cid : json) :
  check_target rt w now (jobs, u) (name, cid) = Ok (jobs', u') ->
  exists v, jobs' = <[name := v]> jobs
    /\ (startswith v "executed_at: " = true /\ u' = u
        \/ startswith v "last_seen: " = true /\ u' = true).
Proof.
  unfold check_target. destruct cid as [| | | |cid| |]; try discriminate.
  cbn [mbind result_bind].
  destruct (inspect_container rt cid) as [info|]; cbn [mbind result_bind];
    [|discriminate].
  destruct (container_last_event_ts info) as [[ts|]|]; cbn [mbind result_bind];
    [| |discriminate].
  - destruct (now - ts <=? w); intros ?; simplify_eq; eexists; (split; [reflexivity|]).
    + left. split; [apply (startswith_app "executed_at: ") | reflexivity].
    + right. split; [apply (startswith_app "last_seen: ") | reflexivity].
  - intros ?; simplify_eq. eexists. split; [reflexivity|]. right. now split.
Qed.

Lemma check_loop (rt : string) (w : timedelta) (now : instant)
    (target : list (string * json)) (jobs jobs' : gmap string string) (u u' : bool) :
  Py.for_each (check_target rt w now) target (jobs, u) = Ok (jobs', u') ->
  (forall name, is_Some (jobs' !! name) <-> is_Some (jobs !! name) \/ name ∈ target.*1)
  /\ (u' = false -> u = false)
  /\ (u' = false ->
      (forall n v, jobs !! n = Some v -> startswith v "executed_at: " = true) ->
      forall n v, jobs' !! n = Some v -> startswith v "executed_at: " = true)
  /\ ((forall n v, jobs !! n = Some v ->
         startswith v "executed_at: " = true \/ startswith v "last_seen: " = true) ->
      forall n v, jobs' !! n = Some v ->
        startswith v "executed_at: " = true \/ startswith v "last_seen: " = true).
Proof.
  revert jobs u. induction target as [|[name cid] l IH]; intros jobs u;
    cbn [Py.for_each].
  - intros ?; simplify_eq. split; [|split; [|split]]; auto.
    intros name. split; [now left|].
    intros [?|Hin]; [assumption | now apply elem_of_nil in Hin].
  - destruct (check_target rt w now (jobs, u) (name, cid)) as [[jobs1 u1]|] eqn:Hstep;
      cbn [mbind result_bind]; [|discriminate].
    intros Hrest. apply check_target_step in Hstep as (v & -> & Hv).
    destruct (IH _ _ Hrest) as (Hdom & Hflag & Hexec & Hany).
    rewrite fmap_cons. cbn [fst]. split; [|split; [|split]].
    + intros name0. split.
      * intros Hs. apply Hdom in Hs as [Hs|Hin].
        -- apply lookup_insert_is_Some in Hs as [<-|[_ Hs]];
             [right; apply list_elem_of_here | now left].
        -- right. now apply list_elem_of_further.
      * intros [Hs|[->|Hin]%elem_of_cons]; apply Hdom.
        -- left. apply lookup_insert_is_Some.
           destruct (decide (name = name0)); [now left | now right].
        -- left. rewrite lookup_insert_eq. now eexists.
        -- now right.
    + intros Hu. specialize (Hflag Hu). destruct Hv as [[_ ->]|[_ ->]];
        [exact Hflag | discriminate].
    + intros Hu Hall. specialize (Hflag Hu). apply (Hexec Hu).
      intros n x. destruct (decide (name = n)) as [->|Hne].
      * rewrite lookup_insert_eq. intros [= <-].
        destruct Hv as [[Hx _]|[_ ->]]; [exact Hx | discriminate].
      * rewrite lookup_insert_ne by assumption. apply Hall.
    + intros Hall. apply Hany. intros n x. destruct (decide (name = n)) as [->|Hne].
      * rewrite lookup_insert_eq. intros [= <-].
        destruct Hv as [[Hx _]|[Hx _]]; [now left | now right].
      * rewrite lookup_insert_ne by assumption. apply Hall.
Qed.

(** X11. When the second loop completes, the job mapping has an entry
    for exactly the names that were selected, one per name however often
    the name occurs, and every entry starts with [executed_at: ] or with
    [last_seen: ]. *)
Theorem check_targets_entries (rt : string) (w : timedelta) (now : instant)
    (target : list (string * json)) (jobs : gmap string string) (u : bool) :
  check_targets rt w now target = Ok (jobs, u) ->
  (forall name, is_Some (jobs !! name) <-> name ∈ target.*1)
  /\ (forall n v, jobs !! n = Some v ->
        startswith v "executed_at: " = true \/ startswith v "last_seen: " = true).
Proof.
  intros Hrun. destruct (check_loop _ _ _ _ _ _ _ _ Hrun) as (Hdom & _ & _ & Hany).
  split.
  - intros name. rewrite Hdom, lookup_empty. split; [|now right].
    intros [[x Hx]|Hin]; [discriminate | exact Hin].
  - apply Hany. intros n v. rewrite lookup_empty. discriminate.
Qed.

(** X12. A run that ends healthy has recorded nothing but [executed_at]
    entries: once a container is unknown or stale the flag stays set. *)
Theorem check_targets_healthy (rt : string) (w : timedelta) (now : instant)
    (target : list (string * json)) (jobs : gmap string string) :
  check_targets rt w now target = Ok (jobs, false) ->
  forall n v, jobs !! n = Some v -> startswith v "executed_at: " = true.
Proof.
  intros Hrun. destruct (check_loop _ _ _ _ _ _ _ _ Hrun) as (_ & _ & Hexec & _).
  apply (Hexec eq_refl). intros n v. rewrite lookup_empty. discriminate.
Qed.

(** *** [main] *)

(** X13. The engine and the exits of [main]. An engine given by name,
    [docker] or [podman], is the one used, and the search path is not
    looked at; with [--runtime auto] it is [docker] when that is on the
    search path, else [podman] when that is, and with neither [main]
    leaves with status 2 before it runs anything. The listing is run with
    the engine chosen: an exception of that subprocess (the engine is
    missing) leaves [main] as it came, and a status other than zero makes
    [main] leave with status 3. *)
Theorem main_exits (a : args) :
  (runtime a = Docker -> select_runtime a = Ok "docker")
  /\ (runtime a = Podman -> select_runtime a = Ok "podman")
  /\ (runtime a = Auto -> on_path "docker" = true -> select_runtime a = Ok "docker")
  /\ (runtime a = Auto -> on_path "docker" = false -> on_path "podman" = true ->
      select_runtime a = Ok "podman")
  /\ (runtime a = Auto -> on_path "docker" = false -> on_path "podman" = false ->
      main a = Raise (SystemExit 2))
  /\ (forall rt, select_runtime a = Ok rt ->
        (forall e, run [rt; "ps"; "-a"; "--format"; "{{json .}}"] = Raise e ->
           main a = Raise e)
        /\ (forall code out err,
              run [rt; "ps"; "-a"; "--format"; "{{json .}}"] = Ok (code, out, err) ->
              code <> 0 -> main a = Raise (SystemExit 3))).
Proof.
  split; [|split; [|split; [|split; [|split]]]].
  - unfold select_runtime. now intros ->.
  - unfold select_runtime. now intros ->.
  - unfold select_runtime, which_runtime. now intros -> ->.
  - unfold select_runtime, which_runtime. now intros -> -> ->.
  - intros Ha Hd Hp. unfold main, select_runtime, which_runtime.
    now rewrite Ha, Hd, Hp.
  - intros rt Hrt. unfold main. rewrite Hrt. cbn [mbind result_bind].
    unfold list_containers. split.
    + intros e ->. reflexivity.
    + intros code out err -> Hcode. cbn [mbind result_bind].
      apply Z.eqb_neq in Hcode. now rewrite Hcode.
Qed.

(** X14. In every report [main] emits, each job is named with the
    prefix, each entry starts with [executed_at: ] or [last_seen: ], the
    status is [healthy] or [unhealthy], and under the status [healthy]
    every entry is an [executed_at] entry. *)
Theorem main_report (a : args) (p : payload) :
  main a = Ok p ->
  (forall name, is_Some (message_jobs p !! name) -> startswith name (prefix a) = true)
  /\ (forall n v, message_jobs p !! n = Some v ->
        startswith v "executed_at: " = true \/ startswith v "last_seen: " = true)
  /\ (message_status p = "healthy" \/ message_status p = "unhealthy")
  /\ (message_status p = "healthy" ->
      forall n v, message_jobs p !! n = Some v -> startswith v "executed_at: " = true).
Proof.
  unfold main.
  destruct (select_runtime a) as [rt|]; cbn [mbind result_bind]; [|discriminate].
  destruct (list_containers rt) as [containers|]; cbn [mbind result_bind];
    [|discriminate].
  destruct (select_targets (prefix a) containers) as [target|] eqn:Hsel;
    cbn [mbind result_bind]; [|discriminate].
  destruct (check_targets rt (window a) now_utc target) as [[jobs u]|] eqn:Hchk;
    cbn [mbind result_bind]; [|discriminate].
  destruct get_ansible_version as [v|]; cbn [mbind result_bind]; [|discriminate].
  intros [= <-]. cbn [message_jobs message_status].
  destruct (select_loop _ _ _ _ Hsel) as (extra & -> & _ & Hall).
  destruct (check_loop _ _ _ _ _ _ _ _ Hchk) as (Hdom & _ & Hexec & Hany).
  repeat split.
  - intros name Hs. apply Hdom in Hs as [[x Hx]|Hin];
      [rewrite lookup_empty in Hx; discriminate|].
    apply list_elem_of_fmap in Hin as ([n cid] & -> & Hin).
    rewrite Forall_forall in Hall. now apply (Hall _ Hin).
  - apply Hany. intros n x. rewrite lookup_empty. discriminate.
  - destruct u; [now right | now left].
  - destruct u; [discriminate|]. intros _. apply (Hexec eq_refl).
    intros n x. rewrite lookup_empty. discriminate.
Qed.

End More.

End MonitorMore.

(** ** More on the configuration checker *)

Module CheckerMore.
Import parse_sshd_config CheckerSpec CheckerFacts.

(** *** What is written *)

Lemma scan_line_writes (key : string) (expected : json) (w w1 : world) (line : string) :
  scan_line key expected w line = Ok w1 ->
  length (json_log w1)
  = (length (json_log w) + if differsb key expected line then 1 else 0)%nat.
Proof.
  unfold scan_line, differsb. destruct (matches key line); cbn [andb].
  - destruct (Py.last (PyStr.split line)) as [tok|]; cbn [mbind result_bind];
      [|discriminate].
    destruct (Py.eq_str expected tok); intros [= <-]; cbn; lia.
  - intros [= <-]. lia.
Qed.

Lemma scan_key_writes (key : string) (expected : json) (all_lines : list string)
    (w w1 : world) :
  scan_key all_lines w (key, expected) = Ok w1 ->
  length (json_log w1)
  = (length (json_log w) + length (List.filter (differsb key expected) all_lines))%nat.
Proof.
  unfold scan_key. cbn [fst snd]. revert w.
  induction all_lines as [|line l IH]; intros w; cbn [Py.for_each List.filter].
  - intros [= <-]. cbn. lia.
  - destruct (scan_line key expected w line) as [w0|] eqn:Hstep;
      cbn [mbind result_bind]; [|discriminate].
    intros Hrest. apply IH in Hrest. apply scan_line_writes in Hstep.
    rewrite Hrest, Hstep. clear.
    destruct (differsb key expected line); cbn [length]; lia.
Qed.

(** X15. A run that completes has written the file once for every pair
    of an expected directive and a line on which the observed value
    differs, and once more at the end; what the file holds at the end is
    the report as it stands in memory. *)
Theorem get_ssh_config_log_writes
    (all_lines : list string) (d : list (string * json)) (w w' : world) :
  get_ssh_config_log all_lines (JDict d) w = Ok w' ->
  head (json_log w') = Some (end_result w')
  /\ length (json_log w') = (length (json_log w) + differing all_lines d + 1)%nat.
Proof.
  unfold get_ssh_config_log.
  destruct (Py.for_each (scan_key all_lines) d w) as [w1|] eqn:Hrun;
    cbn [mbind result_bind]; [|discriminate].
  intros [= <-]. split; [reflexivity|]. cbn [write_to_json json_log length].
  enough (length (json_log w1) = (length (json_log w) + differing all_lines d)%nat) by lia.
  clear -Hrun. revert w Hrun. unfold differing, list_sum.
  induction d as [|[key expected] d IH]; intros w;
    cbn [Py.for_each List.map fold_right].
  - intros [= <-]. lia.
  - destruct (scan_key all_lines w (key, expected)) as [w0|] eqn:Hstep;
      cbn [mbind result_bind]; [|discriminate].
    intros Hrest. apply IH in Hrest. apply scan_key_writes in Hstep.
    cbn [fst snd]. lia.
Qed.

(** *** Comment lines *)

Lemma for_each_ext {A S : Type} (f g : S -> A -> result S) (l : list A) (s : S) :
  (forall s x, f s x = g s x) -> Py.for_each f l s = Py.for_each g l s.
Proof.
  intros Hfg. revert s. induction l as [|x l IH]; intros s; [reflexivity|].
  cbn [Py.for_each]. rewrite Hfg. destruct (g s x); [apply IH | reflexivity].
Qed.

Lemma scan_line_comment (key : string) (expected : json) (w : world) (line : string) :
  is_comment line = true -> scan_line key expected w line = Ok w.
Proof.
  unfold is_comment, scan_line, matches. intros ->. now rewrite andb_false_r.
Qed.

Lemma scan_key_comments (all_lines : list string) (w : world) (item : string * json) :
  scan_key (List.filter (fun line => negb (is_comment line)) all_lines) w item
  = scan_key all_lines w item.
Proof.
  unfold scan_key. revert w.
  induction all_lines as [|line l IH]; intros w; [reflexivity|].
  cbn [List.filter]. destruct (is_comment line) eqn:E; cbn [negb Py.for_each].
  - rewrite IH, (scan_line_comment _ _ _ _ E). reflexivity.
  - destruct (scan_line item.1 item.2 w line); [apply IH | reflexivity].
Qed.

(** X16. A line with a [#] anywhere in it, a trailing comment included,
    counts for nothing: the run on a file and the run on the same file
    without these lines end alike, in the same state or with the same
    exception. *)
Theorem get_ssh_config_log_ignores_comments
    (all_lines : list string) (defaults : json) (w : world) :
  get_ssh_config_log (List.filter (fun line => negb (is_comment line)) all_lines)
    defaults w
  = get_ssh_config_log all_lines defaults w.
Proof.
  unfold get_ssh_config_log. destruct defaults; try reflexivity.
  now rewrite (for_each_ext _ (scan_key all_lines) d w (scan_key_comments all_lines)).
Qed.

(** *** Where the entries of the report come from *)

Section Provenance.
Variable all_lines : list string.
Variable d : list (string * json).

#[local] Abbreviation observed := (CheckerSpec.observed all_lines d).
#[local] Abbreviation sound := (CheckerSpec.sound all_lines d).

Lemma scan_line_sound (key : string) (expected : json) (w w1 : world) (line : string) :
  (key, expected) ∈ d -> line ∈ all_lines ->
  sound w -> scan_line key expected w line = Ok w1 -> sound w1.
Proof.
  intros Hk Hl [Hm Hr]. unfold scan_line.
  destruct (matches key line) eqn:Hmatch; [|now intros [= <-]].
  destruct (Py.last (PyStr.split line)) as [tok|] eqn:Hlast; cbn [mbind result_bind];
    [|discriminate].
  assert (Hobs : observed key tok) by (exists expected, line; repeat split; assumption).
  assert (Hm' : forall k v, <[key:=tok]> (message w) !! k = Some v -> observed k v).
  { intros k v. destruct (decide (key = k)) as [<-|Hne].
    - rewrite lookup_insert_eq. now intros [= <-].
    - rewrite lookup_insert_ne by assumption. apply Hm. }
  destruct (Py.eq_str expected tok); intros [= <-]; split; cbn; try exact Hm'.
  - intros k v [Hv|[_ Hv]]%lookup_union_Some_raw; [right; now apply Hm' | now apply Hr].
  - intros k v. destruct (decide ("status" = k)) as [<-|Hne]; [now left|].
    rewrite lookup_insert_ne by assumption. apply Hr.
Qed.

Lemma scan_key_sound (key : string) (expected : json) (ls : list string) (w w1 : world) :
  (key, expected) ∈ d -> (forall line, line ∈ ls -> line ∈ all_lines) ->
  sound w -> scan_key ls w (key, expected) = Ok w1 -> sound w1.
Proof.
  intros Hk. unfold scan_key. cbn [fst snd]. revert w.
  induction ls as [|line l IH]; intros w Hsub Hw; cbn [Py.for_each].
  - now intros [= <-].
  - destruct (scan_line key expected w line) as [w0|] eqn:Hstep;
      cbn [mbind result_bind]; [|discriminate].
    apply IH.
    + intros x Hx. apply Hsub. now apply list_elem_of_further.
    + eapply scan_line_sound; [exact Hk | | exact Hw | exact Hstep].
      apply Hsub, list_elem_of_here.
Qed.

Lemma scan_all_sound (ds : list (string * json)) (w w1 : world) :
  (forall item, item ∈ ds -> item ∈ d) ->
  sound w -> Py.for_each (scan_key all_lines) ds w = Ok w1 -> sound w1.
Proof.
  revert w. induction ds as [|[key expected] l IH]; intros w Hsub Hw; cbn [Py.for_each].
  - now intros [= <-].
  - destruct (scan_key all_lines w (key, expected)) as [w0|] eqn:Hstep;
      cbn [mbind result_bind]; [|discriminate].
    apply IH.
    + intros x Hx. apply Hsub. now apply list_elem_of_further.
    + eapply scan_key_sound; [| | exact Hw | exact Hstep]; [|auto].
      apply Hsub, list_elem_of_here.
Qed.

(** X17. After a run from the loaded module that completes, every key of
    the report other than [status] is an expected directive, and its value
    is the observed value, the last token, of a non-comment line of the
    file that contains the directive. So an expected directive that no
    such line contains is absent from the report. *)
Theorem get_ssh_config_log_provenance (w' : world) :
  get_ssh_config_log all_lines (JDict d) initial = Ok w' ->
  (forall k v, end_result w' !! k = Some v ->
     k = "status"
     \/ exists e line, (k, e) ∈ d /\ line ∈ all_lines /\ observes k line v)
  /\ (forall k, k <> "status" ->
        (forall line, line ∈ all_lines -> matches k line = false) ->
        end_result w' !! k = None).
Proof.
  unfold get_ssh_config_log.
  destruct (Py.for_each (scan_key all_lines) d initial) as [w1|] eqn:Hrun;
    cbn [mbind result_bind]; [|discriminate].
  intros [= <-]. change (end_result (write_to_json w1)) with (end_result w1).
  assert (Hinit : sound initial).
  { split.
    - intros k v. rewrite message_initial. discriminate.
    - intros k v Hv. left. destruct (decide (k = "status")) as [->|Hne]; [reflexivity|].
      unfold initial in Hv. cbn in Hv. rewrite lookup_singleton_ne in Hv by congruence.
      discriminate. }
  destruct (scan_all_sound d initial w1 (fun _ Hi => Hi) Hinit Hrun) as [_ Hr].
  split; [exact Hr|].
  intros k Hk Hno. destruct (end_result w1 !! k) as [v|] eqn:E; [|reflexivity].
  destruct (Hr k v E) as [->|(e & line & _ & Hl & [Hm _])]; [congruence|].
  rewrite (Hno line Hl) in Hm. discriminate.
Qed.

End Provenance.

(** *** Lines without a token *)





(** *** The status over several calls *)

(** X19. The dictionaries are globals, and nothing resets them: called
    on a state whose status is [compliant] already, with no directive named
    [status] then or now, a run that completes leaves the status
    [compliant], whatever the new file says. In general the status after
    the run is [compliant] or what it was. *)
Theorem get_ssh_config_log_status_kept
    (all_lines : list string) (d : list (string * json)) (w w' : world) :
  "status" ∉ d.*1 ->
  message w !! "status" = None ->
  get_ssh_config_log all_lines (JDict d) w = Ok w' ->
  (status w' = Some "compliant" \/ status w' = status w)
  /\ (status w = Some "compliant" -> status w' = Some "compliant").
Proof.
  intros Hkeys Hinv. unfold get_ssh_config_log.
  destruct (Py.for_each (scan_key all_lines) d w) as [w1|] eqn:Hrun;
    cbn [mbind result_bind]; [|discriminate].
  intros [= <-]. change (status (write_to_json w1)) with (status w1).
  destruct (scan_all_spec _ _ _ _ Hkeys Hinv Hrun) as (_ & _ & Hst & _).
  destruct Hst as [[_ Hs]|[_ Hs]]; split; auto; congruence.
Qed.

(** *** Values that differ *)

Lemma scan_line_report (key : string) (expected : json) (w w1 : world) (line : string) :
  ~ agrees key expected line ->
  scan_line key expected w line = Ok w1 ->
  forall k, k <> "status" -> end_result w1 !! k = end_result w !! k.
Proof.
  intros Hno. unfold scan_line.
  destruct (matches key line) eqn:Hm; [|now intros [= <-]].
  destruct (Py.last (PyStr.split line)) as [tok|] eqn:Hlast; cbn [mbind result_bind];
    [|discriminate].
  destruct (Py.eq_str expected tok) eqn:Heq.
  - exfalso. apply Hno. exists tok. now repeat split.
  - intros [= <-] k Hk. cbn. now rewrite lookup_insert_ne by congruence.
Qed.

(** X20. An observed value that differs from the expected one is kept in
    the accumulator only. When no line agrees with any expected directive,
    a run that completes leaves every entry of the report but [status] as
    it found it: from the loaded module the report then holds the status
    and nothing else, not one directive. *)
Theorem get_ssh_config_log_differing_not_reported
    (all_lines : list string) (d : list (string * json)) (w w' : world) :
  (forall k e line, (k, e) ∈ d -> line ∈ all_lines -> ~ agrees k e line) ->
  get_ssh_config_log all_lines (JDict d) w = Ok w' ->
  forall k, k <> "status" -> end_result w' !! k = end_result w !! k.
Proof.
  intros Hno. unfold get_ssh_config_log.
  destruct (Py.for_each (scan_key all_lines) d w) as [w1|] eqn:Hrun;
    cbn [mbind result_bind]; [|discriminate].
  intros [= <-]. change (end_result (write_to_json w1)) with (end_result w1).
  revert w Hrun. induction d as [|[key expected] l IH]; intros w; cbn [Py.for_each].
  - now intros [= <-].
  - destruct (scan_key all_lines w (key, expected)) as [w0|] eqn:Hstep;
      cbn [mbind result_bind]; [|discriminate].
    intros Hrest k Hk. rewrite (IH (fun k e line Hi => Hno k e line
                                      (list_elem_of_further _ _ _ Hi)) w0 Hrest k Hk).
    assert (Hkey : forall line, line ∈ all_lines -> ~ agrees key expected line)
      by (intros line; apply Hno, list_elem_of_here).
    clear -Hstep Hkey Hk. unfold scan_key in Hstep. cbn [fst snd] in Hstep.
    revert w Hstep. induction all_lines as [|line ls IHl]; intros w; cbn [Py.for_each].
    + now intros [= <-].
    + destruct (scan_line key expected w line) as [w2|] eqn:Hline;
        cbn [mbind result_bind]; [|discriminate].
      intros Hrest. rewrite (IHl (fun x Hx => Hkey x (list_elem_of_further _ _ _ Hx))
                               w2 Hrest).
      apply (scan_line_report key expected w w2 line); auto.
      apply Hkey, list_elem_of_here.
Qed.

End CheckerMore.

(** ** The theorems at work on the example machine *)

Module Examples.
Import EDA_job_monitor MonitorFacts parse_sshd_config CheckerSpec CheckerFacts.

#[local] Existing Instance Example.machine.

(** The second job: [FinishedAt] and [StartedAt] both parse, [StartedAt]
    is the later one, and it is the resolved timestamp. *)
Lemma container_last_event_ts_latest_witness :
  container_last_event_ts
    (JDict (Example.detail_dict "2025-07-02T09:00:00Z" "2025-07-02T08:00:00Z"
              "2025-07-02T07:59:58Z"))
  = Ok (Some 63887043600000000).
Proof.
  edestruct (container_last_event_ts_latest
               (Example.detail_dict "2025-07-02T09:00:00Z" "2025-07-02T08:00:00Z"
                  "2025-07-02T07:59:58Z")
               (Example.state_dict "2025-07-02T09:00:00Z" "2025-07-02T08:00:00Z")
               (Some 63887040000000000) (Some 63887043600000000)
               (Some 63887039998000000))
    as (r & Hrun & _ & _ & Hstarted); [vm_compute; reflexivity..|].
  rewrite Hrun. f_equal.
  apply (Hstarted 63887040000000000 63887043600000000); try reflexivity.
  intros tc [= <-]. discriminate.
Defined.

(** A record with a prefix-matching name and an identifier is passed on
    with both. *)
Lemma select_target_by_name_witness :
  select_target "ansible" [] (JDict [("ID", JStr "1f3a"); ("Names", JStr "ansible-job-1")])
  = Ok [("ansible-job-1", JStr "1f3a")].
Proof.
  destruct (select_target_by_name "ansible" []
              [("ID", JStr "1f3a"); ("Names", JStr "ansible-job-1")])
    as (out & Hrun & _ & _ & Hpass & _).
  rewrite Hrun. f_equal. apply (Hpass "ansible-job-1"); reflexivity.
Defined.

(** C3, the claim as it stands, fails: a record named [ansible-job-1]
    that has neither [ID] nor [Id] is not skipped. The filter passes it
    on with the empty string as its identifier, and the second loop
    gives it a job entry. *)
Lemma unidentified_record_is_passed_on :
  Py.lookup "ID" Example.unidentified = None
  /\ Py.lookup "Id" Example.unidentified = None
  /\ select_targets "ansible" [JDict Example.unidentified]
     = Ok [("ansible-job-1", JStr "")]
  /\ exists jobs unhealthy,
       check_targets "docker" Example.day now_utc [("ansible-job-1", JStr "")]
       = Ok (jobs, unhealthy)
       /\ jobs !! "ansible-job-1" = Some "last_seen: unknown".
Proof.
  repeat split. eexists _, _. split; reflexivity.
Qed.

(** The third job finished exactly one window before now: it counts as
    executed. *)
Lemma check_target_window_witness :
  check_target "docker" Example.day now_utc (∅, false) ("ansible-job-3", JStr "b5e1")
  = Ok (<["ansible-job-3" := "executed_at: 2025-07-01T12:00:00Z"]> ∅, false).
Proof.
  refine (proj1 (proj2
            (check_target_window "docker" Example.day now_utc ∅ false
               "ansible-job-3" "b5e1"
               (JDict (Example.detail_dict "2025-07-01T11:00:00Z"
                         "2025-07-01T12:00:00Z" "2025-07-01T10:59:59Z"))
               63886968000000000 _ _)) _);
    vm_compute; reflexivity.
Defined.

(** No container is named [nightly...]: the report is healthy and has no
    job. *)
Lemma main_status_witness :
  exists p, main Example.cli_nightly = Ok p
            /\ message_status p = "healthy" /\ message_jobs p = ∅.
Proof.
  refine (proj2 (proj1 (main_status Example.cli_nightly "docker" [] _ _) _)
            (Some "2.15.0") _);
    vm_compute; reflexivity.
Defined.

(** The inspection of the second job returns the first element of the
    array the engine prints. *)
Lemma inspect_container_degrades_witness :
  inspect_container "docker" "77c0"
  = Ok (JDict (Example.detail_dict "2025-07-02T09:00:00Z" "2025-07-02T08:00:00Z"
                 "2025-07-02T07:59:58Z")).
Proof.
  refine (proj1 (proj2
            (proj1 (proj2 (inspect_container_degrades "docker" "77c0"))
               0 (Example.detail_of Example.job2 ++ Example.nl) "" _))
            eq_refl _ [] _);
    vm_compute; reflexivity.
Defined.

(** C7, the claim as it stands, fails: on a machine that has no [podman],
    the inspection with the engine [podman] does not return the empty
    mapping. The subprocess cannot be started, [FileNotFoundError] leaves
    [inspect_container], and the loop of [main] ends there with it
    instead of recording the container as unknown. *)
Lemma inspect_container_raises_without_engine :
  which "podman" = None
  /\ run ["podman"; "inspect"; "77c0"] = Raise FileNotFoundError
  /\ inspect_container "podman" "77c0" = Raise FileNotFoundError
  /\ check_targets "podman" Example.day now_utc [("ansible-job-2", JStr "77c0")]
     = Raise FileNotFoundError.
Proof.
  repeat split.
Qed.

(** [ANSIBLE_USER] is not set and [USER] is [awx]. *)
Lemma get_ansible_user_order_witness : get_ansible_user = "awx".
Proof.
  apply (proj1 (proj2 get_ansible_user_order)).
  - intros value [Hset _]. discriminate Hset.
  - split; [reflexivity | discriminate].
Defined.

(** Ten o'clock at two hours east of Greenwich, with half a second: read
    as ten o'clock UTC. *)
Lemma parse_time_offset_discarded_witness :
  parse_time (JStr "2025-07-01T10:00:00.5+02:00") = Ok (Some 63886960800000000)
  /\ forall (o : timedelta) (u : instant),
       astimezone_utc 63886960800000000 o = Some u -> 63886960800000000 - u = o.
Proof.
  apply (parse_time_offset_discarded "2025-07-01T10:00:00" "5" "+02:0" "0"
           {| wall := 63886960800000000; tzinfo := None |}).
  - reflexivity.
  - eexists. reflexivity.
  - reflexivity.
  - reflexivity.
Defined.

(** Without the fraction the offset is read: eight o'clock UTC, two hours
    earlier. *)
Example parse_time_offset_kept :
  parse_time (JStr "2025-07-01T10:00:00+02:00") = Ok (Some 63886953600000000)
  /\ 63886960800000000 - 63886953600000000 = 2 * 3600 * Calendar.us_per_second.
Proof. split; reflexivity. Qed.

(** The nine digits of a nanosecond fraction change nothing. *)
Example parse_time_nanoseconds :
  parse_time (JStr "2025-07-01T01:01:00.123456789Z")
  = parse_time (JStr "2025-07-01T01:01:00Z").
Proof. reflexivity. Qed.

(** The whole run: the first job is stale, the second and the third were
    executed, and the run is unhealthy. *)
Example main_on_machine :
  exists p, main Example.cli = Ok p
            /\ message_status p = "unhealthy"
            /\ message_jobs p !! "ansible-job-1" = Some "last_seen: 2025-07-01T06:00:00Z"
            /\ message_jobs p !! "ansible-job-2" = Some "executed_at: 2025-07-02T09:00:00Z"
            /\ message_jobs p !! "ansible-job-3" = Some "executed_at: 2025-07-01T12:00:00Z"
            /\ message_jobs p !! "other-job" = None
            /\ timestamp p = "2025-07-02T12:00:00Z"
            /\ ansible_version p = "2.15.0"
            /\ ansible_user p = "awx".
Proof. eexists. split; [reflexivity|]. repeat split. Qed.

Lemma no_status_directive : "status" ∉ Example.sshd_defaults.*1.
Proof.
  cbn. intros Hin.
  repeat (apply elem_of_cons in Hin as [Hin|Hin]; [discriminate|]).
  now apply elem_of_nil in Hin.
Qed.

(** [PermitRootLogin yes] differs from the expected [no]: the status is
    [compliant]. *)
Lemma get_ssh_config_log_status_witness :
  exists w',
    get_ssh_config_log Example.sshd_config (JDict Example.sshd_defaults) initial = Ok w'
    /\ (status w' = Some "compliant"
        <-> some_differs Example.sshd_config Example.sshd_defaults).
Proof.
  eexists. split; [vm_compute; reflexivity|].
  refine (proj1 (proj2
            (get_ssh_config_log_status Example.sshd_config Example.sshd_defaults _
               no_status_directive _)));
    vm_compute; reflexivity.
Defined.

End Examples.

(** ** More of the example machine *)

Module MoreExamples.
Import PyStr EDA_job_monitor MonitorMore parse_sshd_config CheckerSpec CheckerFacts
  CheckerMore.

#[local] Existing Instance Example.machine.

(** A timestamp between blanks. *)
Lemma parse_time_strip_witness :
  parse_time (JStr " 2025-07-01T06:00:00Z ") = parse_time (JStr "2025-07-01T06:00:00Z").
Proof.
  refine (parse_time_strip " 2025-07-01T06:00:00Z " _). vm_compute. discriminate.
Defined.

(** Ten o'clock, two hours east, and a [Z]: ten o'clock UTC. *)
Lemma parse_time_zulu_overrides_offset_witness :
  parse_time (JStr "2025-07-01T10:00:00+02:00Z") = Ok (Some 63886960800000000).
Proof.
  refine (parse_time_zulu_overrides_offset "2025-07-01T10:00:00+02:00"
            {| wall := 63886960800000000; tzinfo := Some 7200000000 |} _).
  vm_compute. reflexivity.
Defined.

(** A detail with nothing but [Created]. *)
Lemma container_last_event_ts_created_only_witness :
  container_last_event_ts (JDict [("Created", JStr "2025-07-01T06:00:00Z")])
  = Ok (Some 63886946400000000).
Proof.
  rewrite (proj1 (container_last_event_ts_created_only
                    [("Created", JStr "2025-07-01T06:00:00Z")] (JDict [])
                    eq_refl eq_refl)).
  vm_compute. reflexivity.
Defined.

(** The four listed containers and the three that are selected. *)
Lemma select_targets_sound_witness :
  (length Example.selected <= length Example.listed)%nat
  /\ forall name cid, (name, cid) ∈ Example.selected ->
       startswith name "ansible" = true /\ (cid = JStr "" \/ Py.truthy cid = true).
Proof.
  refine (select_targets_sound "ansible" Example.listed Example.selected _).
  vm_compute. reflexivity.
Defined.

(** The second loop on the three selected containers. *)
Lemma check_targets_entries_witness :
  exists jobs unhealthy,
    check_targets "docker" Example.day now_utc Example.selected = Ok (jobs, unhealthy)
    /\ forall name, is_Some (jobs !! name) <-> name ∈ Example.selected.*1.
Proof.
  eexists _, _. split; [vm_compute; reflexivity|].
  refine (proj1 (check_targets_entries "docker" Example.day now_utc Example.selected
                   _ _ _)).
  vm_compute. reflexivity.
Defined.

(** The second job alone: a healthy run. *)
Lemma check_targets_healthy_witness :
  exists jobs,
    check_targets "docker" Example.day now_utc [("ansible-job-2", JStr "77c0")]
    = Ok (jobs, false)
    /\ forall n v, jobs !! n = Some v -> startswith v "executed_at: " = true.
Proof.
  eexists. split; [vm_compute; reflexivity|].
  refine (check_targets_healthy "docker" Example.day now_utc
            [("ansible-job-2", JStr "77c0")] _ _).
  vm_compute. reflexivity.
Defined.

(** The report of the whole run names jobs with the prefix only. *)
Lemma main_report_witness :
  exists p, main Example.cli = Ok p
            /\ forall name, is_Some (message_jobs p !! name) ->
                 startswith name "ansible" = true.
Proof.
  eexists. split; [vm_compute; reflexivity|].
  refine (proj1 (main_report Example.cli _ _)). vm_compute. reflexivity.
Defined.

(** One line differs in the first example: two writes. *)
Lemma get_ssh_config_log_writes_witness :
  exists w',
    get_ssh_config_log Example.sshd_config (JDict Example.sshd_defaults) initial = Ok w'
    /\ head (json_log w') = Some (end_result w')
    /\ length (json_log w') = 2%nat.
Proof.
  eexists. split; [vm_compute; reflexivity|].
  refine (get_ssh_config_log_writes Example.sshd_config Example.sshd_defaults
            initial _ _).
  vm_compute. reflexivity.
Defined.

(** The report of the first example holds observed values only. *)
Lemma get_ssh_config_log_provenance_witness :
  exists w',
    get_ssh_config_log Example.sshd_config (JDict Example.sshd_defaults) initial = Ok w'
    /\ forall k v, end_result w' !! k = Some v ->
         k = "status"
         \/ exists e line, (k, e) ∈ Example.sshd_defaults
                           /\ line ∈ Example.sshd_config /\ observes k line v.
Proof.
  eexists. split; [vm_compute; reflexivity|].
  refine (proj1 (get_ssh_config_log_provenance Example.sshd_config
                   Example.sshd_defaults _ _)).
  vm_compute. reflexivity.
Defined.


Lemma no_status_directive_root : "status" ∉ Example.sshd_defaults_root.*1.
Proof.
  cbn. intros Hin.
  repeat (apply elem_of_cons in Hin as [Hin|Hin]; [discriminate|]).
  now apply elem_of_nil in Hin.
Qed.

(** The file put right, from the loaded module: the status is what it
    was. *)
Lemma get_ssh_config_log_status_kept_witness :
  exists w',
    get_ssh_config_log Example.sshd_config_fixed (JDict Example.sshd_defaults_root)
      initial = Ok w'
    /\ (status w' = Some "compliant" \/ status w' = status initial).
Proof.
  eexists. split; [vm_compute; reflexivity|].
  refine (proj1 (get_ssh_config_log_status_kept Example.sshd_config_fixed
                   Example.sshd_defaults_root initial _ no_status_directive_root
                   (message_initial _) _)).
  vm_compute. reflexivity.
Defined.

Lemma port_never_agrees (k : string) (e : json) (line : string) :
  (k, e) ∈ Example.sshd_defaults_port -> line ∈ Example.sshd_config_port ->
  ~ agrees k e line.
Proof.
  intros Hin Hl (tok & [_ Hlast] & Heq).
  apply list_elem_of_singleton in Hin. apply list_elem_of_singleton in Hl.
  injection Hin as -> ->. subst line.
  vm_compute in Hlast. injection Hlast as <-. discriminate Heq.
Qed.

(** [Port 2222] where [22] is expected: the report has no entry for
    [Port]. *)
Lemma get_ssh_config_log_differing_not_reported_witness :
  exists w',
    get_ssh_config_log Example.sshd_config_port (JDict Example.sshd_defaults_port) initial
    = Ok w'
    /\ forall k, k <> "status" -> end_result w' !! k = end_result initial !! k.
Proof.
  eexists. split; [vm_compute; reflexivity|].
  refine (get_ssh_config_log_differing_not_reported Example.sshd_config_port
            Example.sshd_defaults_port initial _ port_never_agrees _).
  vm_compute. reflexivity.
Defined.

(** The engine [podman], given by name on a machine that has none: the
    listing cannot be started and [main] ends with the exception. *)
Lemma main_exits_witness : main Example.cli_podman = Raise FileNotFoundError.
Proof.
  refine (proj1 (proj2 (proj2 (proj2 (proj2 (proj2 (main_exits Example.cli_podman)))))
                   "podman" _) FileNotFoundError _);
    vm_compute; reflexivity.
Defined.

(** The listing of the machine: four lines, four records, in order. *)
Lemma list_containers_records_witness : list_containers "docker" = Ok Example.listed.
Proof.
  refine (proj1 (proj2
            (proj2 (list_containers_records "docker") 0
               (String.concat Example.nl (List.map fst Example.ps_lines) ++ Example.nl)
               "" _))
            eq_refl _);
    [vm_compute; reflexivity|].
  vm_compute. repeat constructor; intros [_ (e & He & _)]; discriminate He.
Defined.

(** The version query of the machine answers [ansible [core 2.15.0]]. *)
Lemma get_ansible_version_cases_witness : get_ansible_version = Ok (Some "2.15.0").
Proof.
  edestruct (proj2 (proj2 get_ansible_version_cases) "/"%char "usr/bin/ansible"
               (0, "ansible [core 2.15.0]" ++ Example.nl, ""))
    as (v & Hv & _); [vm_compute; reflexivity..|].
  rewrite Hv. vm_compute in Hv. congruence.
Defined.


End MoreExamples.
